(** * kraft: the [create] and [list] commands of [kraft/cli.py]

    A shallow embedding of the command-line layer of kraft and of the
    rendering engine it drives.  The commands are written in a small
    state-and-exception monad over a world made of a file system and a
    trace of observable events (terminal output and calls to the
    collaborators of the CLI). *)

From Stdlib Require Import ZArith Ascii String.
From stdpp Require Import gmap strings list fin_maps pretty.

Local Open Scope string_scope.
Local Open Scope list_scope.

(** ** Strings *)

(** Python's [s.split("/")]. *)
Fixpoint split_slash (s : string) : list string :=
  match s with
  | EmptyString => [EmptyString]
  | String c s' =>
      if Ascii.eqb c "/"%char then EmptyString :: split_slash s'
      else match split_slash s' with
           | [] => [String c EmptyString]
           | h :: t => String c h :: t
           end
  end.

(** Python's [sep.join(l)]. *)
Fixpoint join_with (sep : string) (l : list string) : string :=
  match l with
  | [] => EmptyString
  | [x] => x
  | x :: l' => x +:+ sep +:+ join_with sep l'
  end.

(** Python's [s.replace(a, b)] for one-character [a] and [b]. *)
Fixpoint replace_char (a b : ascii) (s : string) : string :=
  match s with
  | EmptyString => EmptyString
  | String c s' => String (if Ascii.eqb c a then b else c) (replace_char a b s')
  end.

Definition starts_with_slash (s : string) : bool :=
  match s with
  | String c _ => Ascii.eqb c "/"%char
  | EmptyString => false
  end.

(** Truthiness of a Python [str | None]. *)
Definition truthy (o : option string) : bool :=
  match o with
  | Some (String _ _) => true
  | _ => false
  end.

(** [o or d] for a Python [str | None]. *)
Definition or_str (o : option string) (d : string) : string :=
  match o with
  | Some (String c s) => String c s
  | _ => d
  end.

(** ** Paths ([pathlib.PurePosixPath]) *)

Module Path.

(** A parsed path: its root (empty, ["/"] or ["//"]) and its segments. *)
Record t := mk { root : string; parts : list string }.

#[global] Instance eq_dec : EqDecision t.
Proof. solve_decision. Defined.

#[global] Instance countable : Countable t.
Proof.
  apply (inj_countable' (fun p => (root p, parts p))
                        (fun x => mk (fst x) (snd x))).
  by intros [].
Defined.

(** [posixpath.splitroot]: one leading slash, or exactly two. *)
Definition splitroot (s : string) : string * string :=
  match s with
  | String "/"%char (String "/"%char (String "/"%char r)) =>
      ("/", String "/"%char (String "/"%char r))
  | String "/"%char (String "/"%char r) => ("//", r)
  | String "/"%char r => ("/", r)
  | _ => (EmptyString, s)
  end.

(** The segments kept by pathlib: empty ones and ["."] are dropped. *)
Definition keep_segment (x : string) : bool :=
  negb (String.eqb x EmptyString) && negb (String.eqb x ".").

Definition segments (s : string) : list string :=
  List.filter keep_segment (split_slash s).

(** [Path(s)]. *)
Definition parse (s : string) : t :=
  let '(r, rel) := splitroot s in mk r (segments rel).

(** [p / s]: an absolute right operand replaces the left one. *)
Definition join (p : t) (s : string) : t :=
  if starts_with_slash s then parse s
  else mk (root p) (parts p ++ segments s).

(** [str(p)]. *)
Definition str (p : t) : string :=
  match root p, parts p with
  | EmptyString, [] => "."
  | r, l => r +:+ join_with "/" l
  end.

(** The path the operating system resolves [p] to from directory [cwd]. *)
Definition absolute (cwd p : t) : t :=
  match root p with
  | EmptyString => mk (root cwd) (parts cwd ++ parts p)
  | _ => p
  end.

(** The last segment, [p.name]. *)
Definition name (p : t) : string := List.last (parts p) EmptyString.

(** [p.parent] for a path with at least one segment. *)
Definition parent (p : t) : t := mk (root p) (List.removelast (parts p)).

End Path.

Abbreviation Path := Path.t.

(** ** The file system *)

Inductive Node :=
| Dir
| File (content : string).

#[export] Instance Node_eq_dec : EqDecision Node.
Proof. solve_decision. Defined.

(** The process' view of the file system: its working directory and the
    nodes that exist, keyed by absolute path. *)
Record FileSystem := mkFS { cwd : Path; nodes : gmap Path Node }.

(** [p.exists()]. *)
Definition path_exists (fs : FileSystem) (p : Path) : bool :=
  bool_decide (is_Some (nodes fs !! Path.absolute (cwd fs) p)).

(** ** Template variables *)

Inductive Value :=
| VStr (s : string)
| VInt (n : Z)
| VBool (b : bool).

#[export] Instance Value_eq_dec : EqDecision Value.
Proof. solve_decision. Defined.

(** ** The collaborators of the CLI *)

(** The result of [kraft.validators.validate_service_name]. *)
Record ValidationResult := mkValidation {
  valid : bool;
  error : option string;
  suggestion : option string
}.

(** What the catalog tells about a template: the dictionary indexed with
    ["name"], ["description"] and ["version"] by [list_templates], and its
    identifier (the service type). *)
Record TemplateDescriptor := mkDescriptor {
  identifier : string;
  name : string;
  description : string;
  version : string
}.

#[export] Instance TemplateDescriptor_eq_dec : EqDecision TemplateDescriptor.
Proof. solve_decision. Defined.

(** The interface of [kraft.renderer.TemplateRenderer] that the CLI uses.
    [render] writes to the file system and either returns or raises an
    exception, of which the CLI reads [str(e)]. *)
Record TemplateRenderer := mkRenderer {
  get_template_info : string -> option TemplateDescriptor;
  list_templates : list TemplateDescriptor;
  render : string -> Path -> gmap string Value -> FileSystem ->
           FileSystem * option string
}.

(** ** Observable events *)

Inductive Event :=
| UiPrint (s : string)
| UiError (s : string)
| UiInfo (s : string)
| UiSuccess (s : string)
| UiTable (title : string) (columns : list string) (rows : list (list string))
| UiProgressEnter (s : string)
| UiProgressExit
| ProgressAddTask (s : string)
| ProgressUpdate
| CallValidate (nm : string)
| CallExists (p : Path)
| CallGetTemplateInfo (st : string)
| CallListTemplates
| CallRender (st : string) (p : Path) (vars : gmap string Value).

#[export] Instance Event_eq_dec : EqDecision Event.
Proof. solve_decision. Defined.

(** ** The command monad *)

Inductive Exn :=
| TyperExit (code : Z)
| PyException (msg : string).

Inductive Outcome (A : Type) :=
| Return (a : A)
| Raise (e : Exn).
Arguments Return {A} a.
Arguments Raise {A} e.

Record World := mkWorld { fs : FileSystem; trace : list Event }.

Definition M (A : Type) : Type := World -> Outcome A * World.

#[export] Instance M_ret : MRet M := fun A a w => (Return a, w).

#[export] Instance M_bind : MBind M := fun A B f m w =>
  match m w with
  | (Return a, w') => f a w'
  | (Raise e, w') => (Raise e, w')
  end.

Definition emit (e : Event) : M unit :=
  fun w => (Return tt, mkWorld (fs w) (trace w ++ [e])).

Definition raise {A} (e : Exn) : M A := fun w => (Raise e, w).

(** [try: body / except Exception as e: handler(e)]: [typer.Exit] is a
    [RuntimeError], so both kinds of exception are caught. *)
Definition try_except {A} (body : M A) (handler : Exn -> M A) : M A :=
  fun w =>
    match body w with
    | (Return a, w') => (Return a, w')
    | (Raise e, w') => handler e w'
    end.

(** [with cm as x: body]: the exit of the context manager runs on both
    paths and does not swallow the exception. *)
Definition with_context {A} (enter leave : Event) (body : M A) : M A :=
  fun w =>
    let '(o, w') := (emit enter ;; body) w in
    (o, mkWorld (fs w') (trace w' ++ [leave])).

Definition when (b : bool) (m : M unit) : M unit :=
  if b then m else mret tt.

(** [str(e)] of a caught exception; that of [typer.Exit(code)] is its
    one argument. *)
Definition exn_str (e : Exn) : string :=
  match e with
  | PyException msg => msg
  | TyperExit code => pretty code
  end.

Definition ui_print (s : string) : M unit := emit (UiPrint s).
Definition ui_error (s : string) : M unit := emit (UiError s).
Definition ui_info (s : string) : M unit := emit (UiInfo s).
Definition ui_success (s : string) : M unit := emit (UiSuccess s).

(** Reading the world without changing it. *)
Definition gets {A} (f : World -> A) : M A := fun w => (Return (f w), w).

(** [p.exists()], in the runs where it answers: the [OSError] that it
    passes on for a path it cannot examine is not in the model. *)
Definition exists_ (p : Path) : M bool :=
  emit (CallExists p) ;; gets (fun w => path_exists (fs w) p).

Definition path_cwd : M Path := gets (fun w => cwd (fs w)).

Section Cli.

Variable validate_service_name : string -> ValidationResult.
Variable renderer : TemplateRenderer.

Definition call_validate (nm : string) : M ValidationResult :=
  emit (CallValidate nm) ;; mret (validate_service_name nm).

Definition call_get_template_info (st : string) : M (option TemplateDescriptor) :=
  emit (CallGetTemplateInfo st) ;; mret (get_template_info renderer st).

Definition call_list_templates : M (list TemplateDescriptor) :=
  emit CallListTemplates ;; mret (list_templates renderer).

Definition run_render (st : string) (p : Path) (vars : gmap string Value) : M unit :=
  fun w =>
    match render renderer st p vars (fs w) with
    | (fs', None) => (Return tt, mkWorld fs' (trace w))
    | (fs', Some msg) => (Raise (PyException msg), mkWorld fs' (trace w))
    end.

Definition call_render (st : string) (p : Path) (vars : gmap string Value) : M unit :=
  emit (CallRender st p vars) ;; run_render st p vars.

(** [output_dir or Path.cwd() / name]: a [Path] is always truthy. *)
Definition target_of (output_dir : option Path) (nm : string) : M Path :=
  match output_dir with
  | Some p => mret p
  | None => c ← path_cwd; mret (Path.join c nm)
  end.

(** The [variables] dictionary of [create]. *)
Definition variables (nm : string) (port : Z) (python_version : string)
    (no_docker no_tests : bool) : gmap string Value :=
  <["include_tests" := VBool (negb no_tests)]>
  (<["include_docker" := VBool (negb no_docker)]>
  (<["python_version" := VStr python_version]>
  (<["port" := VInt port]>
  (<["project_name" := VStr nm]> ∅)))).

(** [create], lines 27-95. *)
Definition create (nm service_type : string) (port : Z) (python_version : string)
    (with_addons : option (list string)) (no_docker no_tests : bool)
    (output_dir : option Path) : M unit :=
  validation ← call_validate nm;
  when (negb (valid validation))
    (ui_error (or_str (error validation) "Invalid service name") ;;
     when (truthy (suggestion validation))
       (ui_info ("Suggestion: " +:+ default EmptyString (suggestion validation))) ;;
     raise (TyperExit 1)) ;;
  target_dir ← target_of output_dir nm;
  target_exists ← exists_ target_dir;
  when target_exists
    (ui_error ("Directory '" +:+ Path.str target_dir +:+ "' already exists") ;;
     raise (TyperExit 1)) ;;
  template_info ← call_get_template_info service_type;
  when (bool_decide (template_info = None))
    (ui_error ("Unknown service type: " +:+ service_type) ;;
     ui_info "Available types: rest" ;;
     raise (TyperExit 1)) ;;
  ui_info ("Creating " +:+ service_type +:+ " service '" +:+ nm +:+ "'...") ;;
  let vars := variables nm port python_version no_docker no_tests in
  try_except
    (with_context (UiProgressEnter "Generating project...") UiProgressExit
       (emit (ProgressAddTask "Rendering templates...") ;;
        call_render service_type target_dir vars ;;
        emit ProgressUpdate) ;;
     ui_success ("Created service '" +:+ nm +:+ "' at " +:+ Path.str target_dir) ;;
     ui_print EmptyString ;;
     ui_print "[bold]Next steps:[/bold]" ;;
     ui_print ("  cd " +:+ nm) ;;
     ui_print "  uv sync --extra dev" ;;
     ui_print ("  uv run uvicorn " +:+ replace_char "-"%char "_"%char nm +:+ ".main:app --reload") ;;
     ui_print EmptyString ;;
     ui_print "Or with Docker:" ;;
     ui_print "  docker-compose up --build")
    (fun e =>
       ui_error ("Failed to create service: " +:+ exn_str e) ;;
       raise (TyperExit 1)).

(** [list_templates], lines 98-112. *)
Definition list_templates_cmd : M unit :=
  templates ← call_list_templates;
  match templates with
  | [] => ui_info "No templates available"
  | _ =>
      emit (UiTable "Available Templates" ["Name"; "Description"; "Version"]
              (List.map (fun t => [name t; description t; version t]) templates))
  end.

End Cli.

(** The target directory [create] works on, in file system [f]. *)
Definition target_dir (output_dir : option Path) (nm : string) (f : FileSystem) : Path :=
  match output_dir with
  | Some p => p
  | None => Path.join (cwd f) nm
  end.

(** ** The rendering engine ([kraft.renderer]) *)

Module Engine.

(** Modelled from the spec: the error taxonomy of the engine (section 7);
    the module [kraft.renderer] that raises them is not among the sources. *)
Inductive EngineError :=
| UnknownTemplate (st : string)
| UnknownAddon (id : string)
| MissingVariable (var : string)
| InvalidPath (p : string)
| PlanConflict (p : string)
| TargetExists (p : Path)
| WriteFailed (p : Path) (cause : string).

Inductive Res (A : Type) :=
| Ok (a : A)
| Err (e : EngineError).
Arguments Ok {A} a.
Arguments Err {A} e.

#[global] Instance Res_ret : MRet Res := fun A a => Ok a.
#[global] Instance Res_bind : MBind Res := fun A B f r =>
  match r with
  | Ok a => f a
  | Err e => Err e
  end.
#[global] Instance Res_fmap : FMap Res := fun A B f r =>
  match r with
  | Ok a => Ok (f a)
  | Err e => Err e
  end.

(** Modelled from the spec: template text, literal text interleaved with
    variable references (section 4.3); the template files are not among
    the sources. *)
Inductive Piece :=
| Text (s : string)
| Ref (var : string).

(** Modelled from the spec: a fragment, one file's path template and
    content template (glossary), with the toggle that gates it, if any
    (section 4.2). *)
Record Fragment := mkFragment {
  gate : option string;
  path_template : list Piece;
  content_template : list Piece
}.

#[global] Instance Piece_eq_dec : EqDecision Piece.
Proof. solve_decision. Defined.
#[global] Instance Fragment_eq_dec : EqDecision Fragment.
Proof. solve_decision. Defined.

(** Modelled from the spec: a template, its descriptor, its base and
    toggle-gated fragments in order, and its named add-on groups
    (glossary). *)
Record Template := mkTemplate {
  descriptor : TemplateDescriptor;
  fragments : list Fragment;
  addon_groups : list (string * list Fragment)
}.

Definition Catalog := list Template.

(** Modelled from the spec: [listTemplates] of section 4.1, every known
    template in catalog order. *)
Definition list_templates (cat : Catalog) : list TemplateDescriptor :=
  List.map descriptor cat.

Definition find_template (cat : Catalog) (st : string) : option Template :=
  List.find (fun t => String.eqb (identifier (descriptor t)) st) cat.

(** Modelled from the spec: [getTemplateInfo] of section 4.1, a
    case-sensitive exact match on the identifier, absent when unknown. *)
Definition get_template_info (cat : Catalog) (st : string) : option TemplateDescriptor :=
  descriptor <$> find_template cat st.

(** A toggle is on when the context binds it to the boolean true. *)
Definition toggle_on (vars : gmap string Value) (g : string) : bool :=
  match vars !! g with
  | Some (VBool b) => b
  | _ => false
  end.

Definition enabled (vars : gmap string Value) (f : Fragment) : bool :=
  match gate f with
  | None => true
  | Some g => toggle_on vars g
  end.

(** Whether a fragment is gated by toggle [g]. *)
Definition gated_by (g : string) (f : Fragment) : bool :=
  bool_decide (gate f = Some g).

Definition known_addon (tpl : Template) (id : string) : bool :=
  bool_decide (id ∈ List.map fst (addon_groups tpl)).

(** The fragments of the selected add-on groups, in template order. *)
Definition addon_fragments (tpl : Template) (addons : gset string) : list Fragment :=
  concat (List.map snd
    (List.filter (fun g => bool_decide (fst g ∈ addons)) (addon_groups tpl))).

(** Modelled from the spec: [selectFragments] of section 4.2.  Base
    fragments are always included, gated ones when their toggle is on,
    add-on groups when selected; an unknown add-on is an error. *)
Definition select_fragments (tpl : Template) (vars : gmap string Value)
    (addons : gset string) : Res (list Fragment) :=
  match List.filter (fun id => negb (known_addon tpl id)) (elements addons) with
  | id :: _ => Err (UnknownAddon id)
  | [] => Ok (List.filter (enabled vars) (fragments tpl ++ addon_fragments tpl addons))
  end.

(** Modelled from the spec: the coercion policy of section 4.3, strings
    verbatim, integers and booleans in their canonical text. *)
Definition value_text (v : Value) : string :=
  match v with
  | VStr s => s
  | VInt n => pretty n
  | VBool true => "True"
  | VBool false => "False"
  end.

(** Substitution of the variable references of a template text. *)
Fixpoint expand (vars : gmap string Value) (t : list Piece) : Res string :=
  match t with
  | [] => Ok EmptyString
  | Text s :: t' => r ← expand vars t'; mret (s +:+ r)
  | Ref x :: t' =>
      match vars !! x with
      | None => Err (MissingVariable x)
      | Some v => r ← expand vars t'; mret (value_text v +:+ r)
      end
  end.

(** Parent-directory segments are resolved against the segments before
    them; [None] when one would leave the output root. *)
Fixpoint resolve (acc segs : list string) : option (list string) :=
  match segs with
  | [] => Some (rev acc)
  | s :: r =>
      if String.eqb s ".." then
        match acc with
        | [] => None
        | _ :: acc' => resolve acc' r
        end
      else resolve (s :: acc) r
  end.

(** Modelled from the spec: the destination of a fragment stays relative
    to the output root or the render fails with [InvalidPath]
    (section 4.3).  A destination that is the root itself names no file. *)
Definition destination (s : string) : Res (list string) :=
  let p := Path.parse s in
  match Path.root p with
  | EmptyString =>
      match resolve [] (Path.parts p) with
      | Some (x :: l) => Ok (x :: l)
      | _ => Err (InvalidPath s)
      end
  | _ => Err (InvalidPath s)
  end.

(** Modelled from the spec: a [FragmentPlanEntry] (section 3). *)
Record Entry := mkEntry { dest : list string; content : string }.

Definition render_fragment (vars : gmap string Value) (f : Fragment) : Res Entry :=
  p ← expand vars (path_template f);
  d ← destination p;
  c ← expand vars (content_template f);
  mret (mkEntry d c).

Fixpoint render_all (vars : gmap string Value) (l : list Fragment) : Res (list Entry) :=
  match l with
  | [] => Ok []
  | f :: l' =>
      e ← render_fragment vars f;
      r ← render_all vars l';
      mret (e :: r)
  end.

(** The first destination that occurs twice in a plan. *)
Fixpoint conflict (plan : list Entry) : option (list string) :=
  match plan with
  | [] => None
  | e :: r =>
      if bool_decide (dest e ∈ List.map dest r) then Some (dest e)
      else conflict r
  end.

(** Modelled from the spec: [render] of section 4.3.  The plan is built
    whole, then checked for duplicate destinations. *)
Definition render_plan (vars : gmap string Value) (l : list Fragment) : Res (list Entry) :=
  plan ← render_all vars l;
  match conflict plan with
  | Some d => Err (PlanConflict (join_with "/" d))
  | None => Ok plan
  end.

(** The node at relative position [rel] below [root]. *)
Definition under (root : Path) (rel : list string) : Path :=
  Path.mk (Path.root root) (Path.parts root ++ rel).

(** The directories implied by a relative path, outermost first. *)
Definition dir_prefixes (rel : list string) : list (list string) :=
  List.map (fun n => take n rel) (List.seq 1 (length rel - 1)).

Fixpoint mkdirs (root : Path) (ds : list (list string)) (m : gmap Path Node)
    : Res (gmap Path Node) :=
  match ds with
  | [] => Ok m
  | d :: r =>
      match m !! under root d with
      | Some (File _) => Err (WriteFailed (under root d) "Not a directory")
      | _ => mkdirs root r (<[under root d := Dir]> m)
      end
  end.

Definition write_entry (root : Path) (e : Entry) (m : gmap Path Node)
    : Res (gmap Path Node) :=
  m' ← mkdirs root (dir_prefixes (dest e)) m;
  match m' !! under root (dest e) with
  | Some _ => Err (WriteFailed (under root (dest e)) "File exists")
  | None => Ok (<[under root (dest e) := File (content e)]> m')
  end.

Fixpoint write_entries (root : Path) (plan : list Entry) (m : gmap Path Node)
    : Res (gmap Path Node) :=
  match plan with
  | [] => Ok m
  | e :: r => m' ← write_entry root e m; write_entries root r m'
  end.

(** Whether [p] is [root] or lies below it. *)
Definition within (root p : Path) : bool :=
  bool_decide (Path.root p = Path.root root) &&
  bool_decide (Path.parts root `prefix_of` Path.parts p).

(** Removal of the tree rooted at [root]. *)
Definition remove_tree (root : Path) (m : gmap Path Node) : gmap Path Node :=
  filter (fun kv => within root (fst kv) = false) m.

(** Modelled from the spec: [write] of section 4.4.  An existing target
    is refused untouched; otherwise the root is created, then for each
    entry in plan order the directories it implies and the file itself;
    on a failure the partially created root is removed. *)
Definition write (plan : list Entry) (target : Path) (f : FileSystem)
    : FileSystem * Res unit :=
  if path_exists f target then (f, Err (TargetExists target))
  else
    let root := Path.absolute (cwd f) target in
    match write_entries root plan (<[root := Dir]> (nodes f)) with
    | Ok m => (mkFS (cwd f) m, Ok tt)
    | Err e => (mkFS (cwd f) (remove_tree root (nodes f)), Err e)
    end.

(** The render plan of a template: composition, then rendering. *)
Definition plan_of (tpl : Template) (vars : gmap string Value)
    (addons : gset string) : Res (list Entry) :=
  frags ← select_fragments tpl vars addons; render_plan vars frags.

(** Modelled from the spec: the pipeline of section 2, resolve, compose,
    render, then write. *)
Definition generate (cat : Catalog) (st : string) (target : Path)
    (vars : gmap string Value) (addons : gset string) (f : FileSystem)
    : FileSystem * Res unit :=
  match find_template cat st with
  | None => (f, Err (UnknownTemplate st))
  | Some tpl =>
      match plan_of tpl vars addons with
      | Err e => (f, Err e)
      | Ok plan => write plan target f
      end
  end.

(** The text of an error, as [str(e)] gives it to the CLI. *)
Definition error_text (e : EngineError) : string :=
  match e with
  | UnknownTemplate st => "Unknown template: " +:+ st
  | UnknownAddon id => "Unknown add-on: " +:+ id
  | MissingVariable x => "Missing variable: " +:+ x
  | InvalidPath p => "Invalid path: " +:+ p
  | PlanConflict p => "Duplicate destination: " +:+ p
  | TargetExists p => "Target exists: " +:+ Path.str p
  | WriteFailed p cause => "Cannot write " +:+ Path.str p +:+ ": " +:+ cause
  end.

(** Modelled from the spec: the [TemplateRenderer] the CLI constructs,
    over a catalog.  The CLI hands it no add-on. *)
Definition renderer (cat : Catalog) : TemplateRenderer :=
  mkRenderer (get_template_info cat) (list_templates cat)
    (fun st target vars f =>
       match generate cat st target vars ∅ f with
       | (f', Ok _) => (f', None)
       | (f', Err e) => (f', Some (error_text e))
       end).

(** No text of the fragment mentions variable [x]. *)
Definition unreferenced (x : string) (f : Fragment) : Prop :=
  (Ref x ∉ path_template f) ∧ (Ref x ∉ content_template f).

End Engine.

(** ** What a run of [create] prints and calls, case by case *)

Definition is_exists_call (e : Event) : bool :=
  match e with CallExists _ => true | _ => false end.

Definition is_template_lookup (e : Event) : bool :=
  match e with CallGetTemplateInfo _ => true | _ => false end.

Definition is_render_call (e : Event) : bool :=
  match e with CallRender _ _ _ => true | _ => false end.

Definition is_ui_error (e : Event) : bool :=
  match e with UiError _ => true | _ => false end.

(** The error line of each way [create] gives up. *)
Definition msg_target_exists (t : Path) : string :=
  "Directory '" +:+ Path.str t +:+ "' already exists".

Definition msg_unknown_template (st : string) : string :=
  "Unknown service type: " +:+ st.

Definition msg_failed (cause : string) : string :=
  "Failed to create service: " +:+ cause.

Definition events_invalid (v : ValidationResult) (nm : string) : list Event :=
  CallValidate nm ::
  UiError (or_str (error v) "Invalid service name") ::
  (if truthy (suggestion v)
   then [UiInfo ("Suggestion: " +:+ default EmptyString (suggestion v))]
   else []).

Definition events_exists (nm : string) (t : Path) : list Event :=
  [CallValidate nm; CallExists t; UiError (msg_target_exists t)].

Definition events_unknown (nm : string) (t : Path) (st : string) : list Event :=
  [CallValidate nm; CallExists t; CallGetTemplateInfo st;
   UiError (msg_unknown_template st); UiInfo "Available types: rest"].

Definition events_rendering (nm : string) (t : Path) (st : string)
    (vars : gmap string Value) : list Event :=
  [CallValidate nm; CallExists t; CallGetTemplateInfo st;
   UiInfo ("Creating " +:+ st +:+ " service '" +:+ nm +:+ "'...");
   UiProgressEnter "Generating project...";
   ProgressAddTask "Rendering templates...";
   CallRender st t vars].

Definition events_failed (nm : string) (t : Path) (st : string)
    (vars : gmap string Value) (cause : string) : list Event :=
  events_rendering nm t st vars ++ [UiProgressExit; UiError (msg_failed cause)].

Definition events_created (nm : string) (t : Path) (st : string)
    (vars : gmap string Value) : list Event :=
  events_rendering nm t st vars ++
  [ProgressUpdate; UiProgressExit;
   UiSuccess ("Created service '" +:+ nm +:+ "' at " +:+ Path.str t);
   UiPrint EmptyString;
   UiPrint "[bold]Next steps:[/bold]";
   UiPrint ("  cd " +:+ nm);
   UiPrint "  uv sync --extra dev";
   UiPrint ("  uv run uvicorn " +:+ replace_char "-"%char "_"%char nm +:+ ".main:app --reload");
   UiPrint EmptyString;
   UiPrint "Or with Docker:";
   UiPrint "  docker-compose up --build"].

(** The outcome of [create] spelled out by cases, to compare the monadic
    program with. *)
Definition create_cases (validate : string -> ValidationResult) (r : TemplateRenderer)
    (nm st : string) (port : Z) (pv : string) (nd nt : bool) (od : option Path)
    (w : World) : Outcome unit * World :=
  let t := target_dir od nm (fs w) in
  let vars := variables nm port pv nd nt in
  if negb (valid (validate nm)) then
    (Raise (TyperExit 1), mkWorld (fs w) (trace w ++ events_invalid (validate nm) nm))
  else if path_exists (fs w) t then
    (Raise (TyperExit 1), mkWorld (fs w) (trace w ++ events_exists nm t))
  else match get_template_info r st with
  | None => (Raise (TyperExit 1), mkWorld (fs w) (trace w ++ events_unknown nm t st))
  | Some _ =>
      match render r st t vars (fs w) with
      | (f', Some cause) =>
          (Raise (TyperExit 1), mkWorld f' (trace w ++ events_failed nm t st vars cause))
      | (f', None) =>
          (Return tt, mkWorld f' (trace w ++ events_created nm t st vars))
      end
  end.

(** A name that is one plain path segment. *)
Definition plain_name (nm : string) : Prop :=
  nm ≠ EmptyString ∧ nm ≠ "." ∧ "/"%char ∉ list_ascii_of_string nm.

(** ** Sample data *)

Module Scenario.

Import Engine.

Fixpoint has_space (s : string) : bool :=
  match s with
  | EmptyString => false
  | String c s' => Ascii.eqb c " "%char || has_space s'
  end.

(** A validator in the shape the CLI expects: it rejects the empty name,
    and a name with a space in it, for which it suggests dashes. *)
Definition validator (s : string) : ValidationResult :=
  match s with
  | EmptyString => mkValidation false (Some "Service name cannot be empty") None
  | _ =>
      if has_space s then
        mkValidation false (Some "Service name cannot contain spaces")
          (Some (replace_char " "%char "-"%char s))
      else mkValidation true None None
  end.

(** A [rest] template with what the spec tells of it: base files that
    carry the project name, a container manifest and a test scaffold. *)
Definition rest : Template :=
  mkTemplate (mkDescriptor "rest" "rest" "REST API service" "0.1.0")
    [ mkFragment None [Text "pyproject.toml"]
        [Text "name = "; Ref "project_name"; Text " python = "; Ref "python_version"];
      mkFragment None [Text "src/"; Ref "project_name"; Text "/main.py"]
        [Text "PORT = "; Ref "port"];
      mkFragment (Some "include_docker") [Text "Dockerfile"]
        [Text "FROM python:"; Ref "python_version"; Text " EXPOSE "; Ref "port"];
      mkFragment (Some "include_tests") [Text "tests/test_main.py"]
        [Text "from "; Ref "project_name"; Text ".main import app"] ]
    [].

Definition catalog : Catalog := [rest].

(** A renderer whose [render] always raises. *)
Definition failing_renderer : TemplateRenderer :=
  mkRenderer (get_template_info catalog) (list_templates catalog)
    (fun _ _ _ f => (f, Some "No space left on device")).

Definition home : Path := Path.parse "/home/dev".

(** An empty working directory. *)
Definition fresh : World := mkWorld (mkFS home (<[home := Dir]> ∅)) [].

(** A working directory where [orders] and [my service] are taken. *)
Definition taken : World :=
  mkWorld (mkFS home
    (<[Path.join home "my service" := Dir]>
     (<[Path.join home "orders" := File "notes"]>
     (<[home := Dir]> ∅)))) [].

End Scenario.

(** ** More of the command line *)

(** [version], lines 18-23; [v] is the [__version__] of the package. *)
Definition version_cmd (v : string) : M unit :=
  ui_print ("[bold blue]kraft[/bold blue] version [green]" +:+ v +:+ "[/green]").

(** [create] called with a name alone: the defaults of lines 29-39. *)
Definition create_default (validate : string -> ValidationResult)
    (r : TemplateRenderer) (nm : string) : M unit :=
  create validate r nm "rest" 8000 "3.11" None false false None.

(** The events that a run of [create] adds to the trace. *)
Definition emitted (validate : string -> ValidationResult) (r : TemplateRenderer)
    (nm st : string) (port : Z) (pv : string) (ad : option (list string))
    (nd nt : bool) (od : option Path) (w : World) : list Event :=
  drop (length (trace w))
    (trace (snd (create validate r nm st port pv ad nd nt od w))).

(** The three checks that stand before the rendering step. *)
Definition reaches_render (validate : string -> ValidationResult)
    (r : TemplateRenderer) (nm st : string) (od : option Path) (w : World) : bool :=
  valid (validate nm) &&
  negb (path_exists (fs w) (target_dir od nm (fs w))) &&
  bool_decide (is_Some (get_template_info r st)).

(** Whether a command returned, rather than raised. *)
Definition returned {A} (o : Outcome A) : bool :=
  match o with Return _ => true | Raise _ => false end.

Definition count (p : Event -> bool) (l : list Event) : nat :=
  length (List.filter p l).

Definition is_call (e : Event) : bool :=
  match e with
  | CallValidate _ | CallExists _ | CallGetTemplateInfo _
  | CallListTemplates | CallRender _ _ _ => true
  | _ => false
  end.

Definition is_ui_success (e : Event) : bool :=
  match e with UiSuccess _ => true | _ => false end.

Definition is_progress_enter (e : Event) : bool :=
  match e with UiProgressEnter _ => true | _ => false end.

Definition is_progress_exit (e : Event) : bool :=
  match e with UiProgressExit => true | _ => false end.

Definition is_progress_update (e : Event) : bool :=
  match e with ProgressUpdate => true | _ => false end.

Definition is_listing (e : Event) : bool :=
  match e with CallListTemplates | UiTable _ _ _ => true | _ => false end.

(** The keys of the dictionary that [create] builds. *)
Definition variable_keys : gset string :=
  {[ "project_name"; "port"; "python_version"; "include_docker"; "include_tests" ]}.

(** * Facts *)

(** ** The command monad at work *)

Ltac run_cli :=
  unfold create, list_templates_cmd, call_validate, call_list_templates,
    target_of, exists_, path_cwd, gets,
    call_get_template_info, call_render, run_render, ui_error, ui_info,
    ui_success, ui_print, when, try_except, with_context, emit, raise,
    mbind, mret, M_bind, M_ret; cbn.

(** The monadic [create] runs as [create_cases] says. *)
Lemma create_run validate r nm st port pv ad nd nt od w :
  create validate r nm st port pv ad nd nt od w =
  create_cases validate r nm st port pv nd nt od w.
Proof.
  unfold create_cases. run_cli.
  destruct (valid (validate nm)); cbn.
  2: { unfold events_invalid. destruct (truthy _); cbn;
       rewrite <- ?app_assoc; reflexivity. }
  assert (Ht : ∀ w', fs w' = fs w →
            (match od with Some p => fun w0 => (Return p, w0)
             | None => fun w0 => (Return (Path.join (cwd (fs w0)) nm), w0) end) w'
            = (Return (target_dir od nm (fs w)), w')).
  { intros w' E. destruct od; cbn; rewrite ?E; reflexivity. }
  rewrite Ht by reflexivity. cbn.
  destruct (path_exists (fs w) (target_dir od nm (fs w))); cbn.
  { rewrite <- !app_assoc. reflexivity. }
  destruct (get_template_info r st); cbn.
  2: { rewrite <- !app_assoc. reflexivity. }
  destruct (render r st _ _ (fs w)) as [f' [cause|]]; cbn;
    unfold events_failed, events_created, events_rendering;
    rewrite <- !app_assoc; reflexivity.
Qed.

Ltac in_list H :=
  repeat (apply elem_of_cons in H as [H|H]; [subst|]);
  try (apply elem_of_nil in H; destruct H).

(** A run that stops before rendering calls no renderer. *)
Lemma events_invalid_no_call v nm :
  Forall (λ e, is_exists_call e = false ∧ is_template_lookup e = false ∧
               is_render_call e = false) (events_invalid v nm).
Proof.
  unfold events_invalid. destruct (truthy _); repeat constructor.
Qed.

(** ** The claims on [create] and [list] *)

(** C10: when the validator rejects the service name, [create] prints the
    validator's error, then the suggestion if there is one, and exits with
    status 1; it has then neither checked whether the target exists, nor
    looked the template up, nor rendered, and the file system is as it
    was. *)
Theorem create_invalid_name_exits_first validate r nm st port pv ad nd nt od w :
  valid (validate nm) = false →
  create validate r nm st port pv ad nd nt od w =
    (Raise (TyperExit 1),
     mkWorld (fs w)
       (trace w ++
        CallValidate nm ::
        UiError (or_str (error (validate nm)) "Invalid service name") ::
        (if truthy (suggestion (validate nm))
         then [UiInfo ("Suggestion: " +:+ default EmptyString (suggestion (validate nm)))]
         else [])))
  ∧ Forall (λ e, is_exists_call e = false ∧ is_template_lookup e = false ∧
                 is_render_call e = false)
      (events_invalid (validate nm) nm).
Proof.
  intros Hv. split; [|apply events_invalid_no_call].
  rewrite create_run. unfold create_cases. rewrite Hv. reflexivity.
Qed.

Lemma create_invalid_name_exits_first_witness :
  valid (Scenario.validator "my service") = false ∧
  create Scenario.validator (Engine.renderer Scenario.catalog)
    "my service" "rest" 8000 "3.11" None false false None Scenario.taken =
  (Raise (TyperExit 1),
   mkWorld (fs Scenario.taken)
     [CallValidate "my service"; UiError "Service name cannot contain spaces";
      UiInfo "Suggestion: my-service"]).
Proof.
  split; [reflexivity|].
  exact (proj1 (create_invalid_name_exits_first Scenario.validator
    (Engine.renderer Scenario.catalog) "my service" "rest" 8000 "3.11" None
    false false None Scenario.taken eq_refl)).
Defined.

(** C1, as stated, fails: with a name the validator rejects, an existing
    target is not reported; [create] stops on the name. *)
Lemma create_existing_target_invalid_name :
  let r := create Scenario.validator (Engine.renderer Scenario.catalog)
             "my service" "rest" 8000 "3.11" None false false None Scenario.taken in
  path_exists (fs Scenario.taken)
    (target_dir None "my service" (fs Scenario.taken)) = true ∧
  (UiError (msg_target_exists (target_dir None "my service" (fs Scenario.taken)))
    ∉ trace (snd r)).
Proof.
  split; [vm_compute; reflexivity|].
  intros H. vm_compute in H. in_list H; discriminate.
Qed.

(** C1, amended: when the target exists, [create] exits with status 1
    without calling the renderer and leaves the file system as it was; if
    moreover the validator accepts the name, what it reports is that the
    directory already exists, right after the existence check. *)
Theorem create_existing_target validate r nm st port pv ad nd nt od w :
  path_exists (fs w) (target_dir od nm (fs w)) = true →
  let res := create validate r nm st port pv ad nd nt od w in
  fst res = Raise (TyperExit 1)
  ∧ fs (snd res) = fs w
  ∧ (∃ evs, trace (snd res) = trace w ++ evs ∧
            Forall (λ e, is_render_call e = false) evs)
  ∧ (valid (validate nm) = true →
     res = (Raise (TyperExit 1),
            mkWorld (fs w)
              (trace w ++
               [CallValidate nm; CallExists (target_dir od nm (fs w));
                UiError ("Directory '" +:+ Path.str (target_dir od nm (fs w)) +:+
                         "' already exists")]))).
Proof.
  intros He res. subst res. rewrite create_run. unfold create_cases.
  destruct (valid (validate nm)); cbn; rewrite ?He; cbn.
  - split; [done|]. split; [done|]. split; [|done].
    eexists; split; [reflexivity|]. repeat constructor.
  - split; [done|]. split; [done|]. split; [|done].
    eexists; split; [reflexivity|].
    eapply Forall_impl; [apply events_invalid_no_call|].
    intros e (_ & _ & H). exact H.
Qed.

Lemma create_existing_target_witness :
  path_exists (fs Scenario.taken) (target_dir None "orders" (fs Scenario.taken)) = true ∧
  create Scenario.validator (Engine.renderer Scenario.catalog)
    "orders" "rest" 8000 "3.11" None false false None Scenario.taken =
  (Raise (TyperExit 1),
   mkWorld (fs Scenario.taken)
     [CallValidate "orders"; CallExists (Path.parse "/home/dev/orders");
      UiError "Directory '/home/dev/orders' already exists"]).
Proof.
  split; [vm_compute; reflexivity|].
  refine (proj2 (proj2 (proj2 (create_existing_target Scenario.validator
    (Engine.renderer Scenario.catalog) "orders" "rest" 8000 "3.11" None
    false false None Scenario.taken _))) eq_refl).
  vm_compute; reflexivity.
Defined.

(** The catalog knows no template under an identifier it does not list. *)
Lemma find_template_unlisted cat st :
  st ∉ List.map identifier (Engine.list_templates cat) →
  Engine.find_template cat st = None.
Proof.
  unfold Engine.find_template, Engine.list_templates.
  induction cat as [|t cat IH]; cbn; [done|].
  intros Hn. apply not_elem_of_cons in Hn as [Hne Hn].
  destruct (String.eqb_spec (identifier (Engine.descriptor t)) st); [done|].
  by apply IH.
Qed.

(** C3, as stated, fails: with an unknown service type and a target that
    exists, what [create] reports is the existing directory. *)
Lemma create_unknown_template_existing_target :
  let r := create Scenario.validator (Engine.renderer Scenario.catalog)
             "orders" "grpc" 8000 "3.11" None false false None Scenario.taken in
  ("grpc" ∉ List.map identifier (Engine.list_templates Scenario.catalog)) ∧
  (UiError (msg_unknown_template "grpc") ∉ trace (snd r)) ∧
  UiError (msg_target_exists (Path.parse "/home/dev/orders")) ∈ trace (snd r).
Proof.
  split; [|split].
  - intros H. vm_compute in H. in_list H; discriminate.
  - intros H. vm_compute in H. in_list H; discriminate.
  - vm_compute. repeat first [apply list_elem_of_here | apply list_elem_of_further].
Qed.

(** C3, amended: a service type that the catalog does not list has no
    template info (absent, not an error); [create] with it exits with status
    1 and leaves the file system as it was, and when the validator accepts
    the name and the target does not exist, what it reports is the unknown
    service type. *)
Theorem create_unknown_template cat validate nm st port pv ad nd nt od w :
  st ∉ List.map identifier (Engine.list_templates cat) →
  let res := create validate (Engine.renderer cat) nm st port pv ad nd nt od w in
  Engine.get_template_info cat st = None
  ∧ fst res = Raise (TyperExit 1)
  ∧ fs (snd res) = fs w
  ∧ (valid (validate nm) = true →
     path_exists (fs w) (target_dir od nm (fs w)) = false →
     res = (Raise (TyperExit 1),
            mkWorld (fs w)
              (trace w ++
               [CallValidate nm; CallExists (target_dir od nm (fs w));
                CallGetTemplateInfo st;
                UiError ("Unknown service type: " +:+ st);
                UiInfo "Available types: rest"]))).
Proof.
  intros Hn res. subst res.
  assert (Hi : Engine.get_template_info cat st = None).
  { unfold Engine.get_template_info. by rewrite find_template_unlisted. }
  split; [exact Hi|].
  rewrite create_run. unfold create_cases. cbn. rewrite Hi.
  destruct (valid (validate nm)); cbn; [|done].
  destruct (path_exists _ _); cbn; done.
Qed.

Lemma create_unknown_template_witness :
  ("grpc" ∉ List.map identifier (Engine.list_templates Scenario.catalog)) ∧
  create Scenario.validator (Engine.renderer Scenario.catalog)
    "orders" "grpc" 8000 "3.11" None false false None Scenario.fresh =
  (Raise (TyperExit 1),
   mkWorld (fs Scenario.fresh)
     [CallValidate "orders"; CallExists (Path.parse "/home/dev/orders");
      CallGetTemplateInfo "grpc"; UiError "Unknown service type: grpc";
      UiInfo "Available types: rest"]).
Proof.
  assert (H : "grpc" ∉ List.map identifier (Engine.list_templates Scenario.catalog)).
  { intros H. vm_compute in H. in_list H; discriminate. }
  split; [exact H|].
  refine (proj2 (proj2 (proj2 (create_unknown_template Scenario.catalog
    Scenario.validator "orders" "grpc" 8000 "3.11" None false false None
    Scenario.fresh H))) eq_refl _).
  vm_compute; reflexivity.
Defined.

Ltac find_error :=
  repeat first [apply Exists_cons_hd; reflexivity | apply Exists_cons_tl].

(** C4: [create] ends in a normal return or in exit status 1, never in an
    uncaught exception; whenever it exits it has printed an error line; an
    unknown template is reported as such, and an exception raised by the
    render step is caught and reported with its text. *)
Theorem create_errors_reported validate r nm st port pv ad nd nt od w :
  let res := create validate r nm st port pv ad nd nt od w in
  let t := target_dir od nm (fs w) in
  (fst res = Return tt ∨ fst res = Raise (TyperExit 1))
  ∧ (∃ evs, trace (snd res) = trace w ++ evs ∧
       (fst res = Raise (TyperExit 1) → Exists (λ e, is_ui_error e = true) evs) ∧
       (valid (validate nm) = true → path_exists (fs w) t = false →
        (get_template_info r st = None →
           fst res = Raise (TyperExit 1) ∧
           UiError ("Unknown service type: " +:+ st) ∈ evs) ∧
        (∀ f' cause,
           is_Some (get_template_info r st) →
           render r st t (variables nm port pv nd nt) (fs w) = (f', Some cause) →
           fst res = Raise (TyperExit 1) ∧
           UiError ("Failed to create service: " +:+ cause) ∈ evs))).
Proof.
  intros res t. subst res t. rewrite create_run. unfold create_cases.
  destruct (valid (validate nm)) eqn:Hv; cbn.
  2: { split; [by right|]. eexists; split; [reflexivity|].
       split; [|done]. intros _. unfold events_invalid. find_error. }
  destruct (path_exists _ _) eqn:He; cbn.
  { split; [by right|]. eexists; split; [reflexivity|].
    split; [|done]. intros _. unfold events_exists. find_error. }
  destruct (get_template_info r st) as [d|] eqn:Hi; cbn.
  2: { split; [by right|]. eexists; split; [reflexivity|].
       split.
       - intros _. unfold events_unknown. find_error.
       - intros _ _. split.
         + intros _. split; [done|]. unfold events_unknown, msg_unknown_template.
           repeat first [apply list_elem_of_here | apply list_elem_of_further].
         + intros f' cause [d Hd]. discriminate. }
  destruct (render r st _ _ (fs w)) as [f' [cause|]] eqn:Hr; cbn.
  - split; [by right|]. eexists; split; [reflexivity|].
    split.
    + intros _. find_error.
    + intros _ _. split; [done|].
      intros f'' cause' _ [= <- <-]. split; [done|].
      cbn; repeat first [apply list_elem_of_here | apply list_elem_of_further].
  - split; [by left|]. eexists; split; [reflexivity|].
    split; [done|]. intros _ _. split; [done|].
    intros f'' cause' _ [=].
Qed.

Lemma create_errors_reported_witness :
  valid (Scenario.validator "orders") = true ∧
  path_exists (fs Scenario.fresh) (target_dir None "orders" (fs Scenario.fresh)) = false ∧
  is_Some (get_template_info Scenario.failing_renderer "rest") ∧
  render Scenario.failing_renderer "rest" (target_dir None "orders" (fs Scenario.fresh))
    (variables "orders" 8000 "3.11" false false) (fs Scenario.fresh) =
    (fs Scenario.fresh, Some "No space left on device") ∧
  fst (create Scenario.validator Scenario.failing_renderer
         "orders" "rest" 8000 "3.11" None false false None Scenario.fresh) =
    Raise (TyperExit 1).
Proof.
  split; [reflexivity|]. split; [vm_compute; reflexivity|].
  split; [vm_compute; eauto|]. split; [reflexivity|].
  destruct (create_errors_reported Scenario.validator Scenario.failing_renderer
    "orders" "rest" 8000 "3.11" None false false None Scenario.fresh)
    as (_ & evs & _ & _ & H).
  refine (proj1 (proj2 (H eq_refl _) (fs Scenario.fresh) "No space left on device" _ eq_refl)).
  - vm_compute; reflexivity.
  - vm_compute; eauto.
Defined.

(** The dictionary [create] builds binds its five keys. *)
Lemma variables_lookup nm port pv nd nt :
  let vars := variables nm port pv nd nt in
  vars !! "project_name" = Some (VStr nm)
  ∧ vars !! "port" = Some (VInt port)
  ∧ vars !! "python_version" = Some (VStr pv)
  ∧ vars !! "include_docker" = Some (VBool (negb nd))
  ∧ vars !! "include_tests" = Some (VBool (negb nt)).
Proof. unfold variables. repeat split; by simplify_map_eq. Qed.

(** The only call to the renderer is the one of the rendering step. *)
Lemma create_cases_render_call validate r nm st port pv nd nt od w :
  ∃ evs,
    trace (snd (create_cases validate r nm st port pv nd nt od w)) = trace w ++ evs ∧
    ∀ st' p v, CallRender st' p v ∈ evs →
      st' = st ∧ p = target_dir od nm (fs w) ∧ v = variables nm port pv nd nt.
Proof.
  unfold create_cases.
  destruct (valid (validate nm)); cbn.
  2: { eexists; split; [reflexivity|]. intros st' p v H.
       unfold events_invalid in H. destruct (truthy _); in_list H; discriminate. }
  destruct (path_exists _ _); cbn.
  { eexists; split; [reflexivity|]. intros st' p v H. in_list H; discriminate. }
  destruct (get_template_info r st); cbn.
  2: { eexists; split; [reflexivity|]. intros st' p v H. in_list H; discriminate. }
  destruct (render r st _ _ (fs w)) as [f' [cause|]]; cbn;
    (eexists; split; [reflexivity|]); intros st' p v H;
    in_list H; try discriminate; by injection H as -> -> ->.
Qed.

(** C5: the variable context that [create] hands to the renderer binds the
    project name, the port, the Python version, and the two inclusion flags,
    which are the negations of [--no-docker] and [--no-tests]; and [create]
    reaches the renderer with it whenever the name, the target and the
    service type pass their checks. *)
Theorem create_variable_context validate r nm st port pv ad nd nt od w :
  ∃ evs,
    trace (snd (create validate r nm st port pv ad nd nt od w)) = trace w ++ evs ∧
    (∀ st' p vars, CallRender st' p vars ∈ evs →
       vars !! "project_name" = Some (VStr nm)
       ∧ vars !! "port" = Some (VInt port)
       ∧ vars !! "python_version" = Some (VStr pv)
       ∧ vars !! "include_docker" = Some (VBool (negb nd))
       ∧ vars !! "include_tests" = Some (VBool (negb nt))) ∧
    (valid (validate nm) = true →
     path_exists (fs w) (target_dir od nm (fs w)) = false →
     is_Some (get_template_info r st) →
     ∃ vars, CallRender st (target_dir od nm (fs w)) vars ∈ evs).
Proof.
  rewrite create_run.
  destruct (create_cases_render_call validate r nm st port pv nd nt od w)
    as (evs & Ht & Hc).
  exists evs. split; [exact Ht|]. split.
  - intros st' p vars H. apply Hc in H as (_ & _ & ->). apply variables_lookup.
  - intros Hv He [d Hd]. exists (variables nm port pv nd nt).
    revert Ht. unfold create_cases. rewrite Hv, He, Hd. cbn.
    destruct (render r st _ _ (fs w)) as [f' [cause|]]; cbn;
      intros Ht; apply app_inv_head in Ht; subst evs;
      cbn; repeat first [apply list_elem_of_here | apply list_elem_of_further].
Qed.

Lemma create_variable_context_witness :
  ∃ p vars,
    CallRender "rest" p vars ∈
      trace (snd (create Scenario.validator (Engine.renderer Scenario.catalog)
                    "orders" "rest" 8000 "3.11" None true false None Scenario.fresh)) ∧
    vars !! "include_docker" = Some (VBool false) ∧
    vars !! "include_tests" = Some (VBool true).
Proof.
  destruct (create_variable_context Scenario.validator (Engine.renderer Scenario.catalog)
    "orders" "rest" 8000 "3.11" None true false None Scenario.fresh)
    as (evs & Ht & Hk & Hr).
  destruct Hr as [vars Hin]; [reflexivity|vm_compute; reflexivity|vm_compute; eauto|].
  exists (target_dir None "orders" (fs Scenario.fresh)), vars.
  split; [rewrite Ht; apply elem_of_app; by right|].
  destruct (Hk _ _ _ Hin) as (_ & _ & _ & Hd & Hs). by split.
Defined.

(** A string without a slash is one segment. *)
Lemma split_slash_plain s :
  ("/"%char ∉ list_ascii_of_string s) → split_slash s = [s].
Proof.
  induction s as [|c s IH]; cbn; [done|].
  intros Hn. apply not_elem_of_cons in Hn as [Hc Hn].
  destruct (Ascii.eqb_spec c "/"%char); [congruence|].
  by rewrite IH.
Qed.

Lemma join_plain c nm :
  plain_name nm → Path.join c nm = Path.mk (Path.root c) (Path.parts c ++ [nm]).
Proof.
  intros (Hne & Hdot & Hs). unfold Path.join.
  assert (starts_with_slash nm = false) as ->.
  { destruct nm as [|a nm]; [done|]. cbn.
    destruct (Ascii.eqb_spec a "/"%char); [|done].
    subst. exfalso. apply Hs. cbn. left. }
  unfold Path.segments. rewrite split_slash_plain by done. cbn.
  unfold Path.keep_segment.
  destruct (String.eqb_spec nm EmptyString); [done|].
  destruct (String.eqb_spec nm "."); done.
Qed.

(** C9: without [--output] the target is [Path.cwd() / name], which for a
    name that is one plain segment is the directory of that name in the
    working directory; with [--output] it is the given path as it is.  The
    existence check and the renderer get that target. *)
Theorem create_default_target validate r nm st port pv ad nd nt od w :
  (∀ p, target_of (Some p) nm w = (Return p, w))
  ∧ target_of None nm w = (Return (Path.join (cwd (fs w)) nm), w)
  ∧ (plain_name nm →
     Path.name (Path.join (cwd (fs w)) nm) = nm ∧
     Path.parent (Path.join (cwd (fs w)) nm) = cwd (fs w))
  ∧ (valid (validate nm) = true →
     ∃ evs,
       trace (snd (create validate r nm st port pv ad nd nt od w)) =
         trace w ++ CallValidate nm :: CallExists (target_dir od nm (fs w)) :: evs ∧
       ∀ st' p v, CallRender st' p v ∈ evs → p = target_dir od nm (fs w)).
Proof.
  split; [done|]. split; [done|]. split.
  - intros Hp. rewrite (join_plain _ _ Hp).
    unfold Path.name, Path.parent. cbn.
    rewrite last_last, removelast_last. by destruct (cwd (fs w)).
  - intros Hv. rewrite create_run.
    destruct (create_cases_render_call validate r nm st port pv nd nt od w)
      as (evs & Ht & Hc).
    revert Ht Hc. unfold create_cases. rewrite Hv. cbn.
    destruct (path_exists _ _); cbn.
    { intros Ht Hc. eexists; split; [reflexivity|].
      intros st' p v H. in_list H; discriminate. }
    destruct (get_template_info r st); cbn.
    2: { intros Ht Hc. eexists; split; [reflexivity|].
         intros st' p v H. in_list H; discriminate. }
    destruct (render r st _ _ (fs w)) as [f' [cause|]]; cbn;
      intros Ht Hc; (eexists; split; [reflexivity|]);
      intros st' p v H; in_list H; try discriminate; by injection H as -> -> ->.
Qed.

Lemma create_default_target_witness :
  plain_name "orders" ∧
  valid (Scenario.validator "orders") = true ∧
  Path.name (Path.join (cwd (fs Scenario.fresh)) "orders") = "orders" ∧
  Path.parent (Path.join (cwd (fs Scenario.fresh)) "orders") = Scenario.home.
Proof.
  assert (Hp : plain_name "orders").
  { split; [done|]. split; [done|]. intros H. cbn in H. in_list H; discriminate. }
  split; [exact Hp|]. split; [reflexivity|].
  exact (proj1 (proj2 (proj2 (create_default_target Scenario.validator
    (Engine.renderer Scenario.catalog) "orders" "rest" 8000 "3.11" None
    false false None Scenario.fresh))) Hp).
Defined.

(** C8: listing never fails.  The catalog's [list_templates] is total, gives
    one descriptor per template and none for an empty catalog; the [list]
    command returns normally whatever the renderer lists, leaves the file
    system alone, and on an empty listing tells that no templates are
    available. *)
Theorem list_templates_never_fails r cat w :
  Engine.list_templates [] = []
  ∧ length (Engine.list_templates cat) = length cat
  ∧ fst (list_templates_cmd r w) = Return tt
  ∧ fs (snd (list_templates_cmd r w)) = fs w
  ∧ (list_templates r = [] →
     list_templates_cmd r w =
       (Return tt,
        mkWorld (fs w) (trace w ++ [CallListTemplates; UiInfo "No templates available"])))
  ∧ list_templates_cmd (Engine.renderer []) w =
      (Return tt,
       mkWorld (fs w) (trace w ++ [CallListTemplates; UiInfo "No templates available"])).
Proof.
  split; [done|]. split; [apply length_map|].
  assert (He : list_templates r = [] →
     list_templates_cmd r w =
       (Return tt,
        mkWorld (fs w) (trace w ++ [CallListTemplates; UiInfo "No templates available"]))).
  { intros E. run_cli. rewrite E. cbn. by rewrite <- app_assoc. }
  split; [|split]; [| |split; [exact He|]].
  - run_cli. by destruct (list_templates r).
  - run_cli. by destruct (list_templates r).
  - run_cli. by rewrite <- app_assoc.
Qed.

Lemma list_templates_never_fails_witness :
  list_templates (Engine.renderer []) = [] ∧
  list_templates_cmd (Engine.renderer []) Scenario.fresh =
    (Return tt,
     mkWorld (fs Scenario.fresh) [CallListTemplates; UiInfo "No templates available"]).
Proof.
  split; [reflexivity|].
  exact (proj1 (proj2 (proj2 (proj2 (proj2 (list_templates_never_fails
    (Engine.renderer []) [] Scenario.fresh))))) eq_refl).
Defined.

(** [create] never reads its [with_addons] argument. *)
Lemma create_ignores_addons validate r nm st port pv a1 a2 nd nt od w :
  create validate r nm st port pv a1 nd nt od w =
  create validate r nm st port pv a2 nd nt od w.
Proof. reflexivity. Qed.

(** C2, where the code departs from it: [--with graphql] names an add-on
    the template does not have, and the composer would refuse it, yet
    [create] succeeds without an error line, exactly as it does without the
    option. *)
Theorem create_drops_unknown_addon :
  let run ad := create Scenario.validator (Engine.renderer Scenario.catalog)
                  "orders" "rest" 8000 "3.11" ad false false None Scenario.fresh in
  Engine.select_fragments Scenario.rest (variables "orders" 8000 "3.11" false false)
    (list_to_set ["graphql"]) = Engine.Err (Engine.UnknownAddon "graphql")
  ∧ fst (run (Some ["graphql"])) = Return tt
  ∧ Forall (λ e, is_ui_error e = false) (trace (snd (run (Some ["graphql"]))))
  ∧ run (Some ["graphql"]) = run None.
Proof.
  split; [vm_compute; reflexivity|]. split; [vm_compute; reflexivity|].
  split; [|reflexivity]. vm_compute. repeat constructor.
Qed.

(** ** The rendering engine *)

Section EngineFacts.

Import Engine.

Lemma filter_sublist {A} (p : A → bool) (l : list A) :
  sublist (List.filter p l) l.
Proof.
  induction l as [|x l IH]; cbn; [constructor|].
  destruct (p x); by constructor.
Qed.

Lemma filter_filter_andb {A} (p q : A → bool) (l : list A) :
  List.filter q (List.filter p l) = List.filter (λ x, p x && q x) l.
Proof.
  induction l as [|x l IH]; cbn; [done|].
  destruct (p x); cbn; [destruct (q x)|]; by rewrite IH.
Qed.

Lemma filter_ext_on {A} (p q : A → bool) (l : list A) :
  (∀ x, x ∈ l → p x = q x) → List.filter p l = List.filter q l.
Proof.
  induction l as [|x l IH]; cbn; [done|]. intros H.
  rewrite (H x) by left. rewrite IH; [done|].
  intros y Hy. apply H. by right.
Qed.

(** *** Composition *)

Lemma enabled_toggle_off vars g f :
  enabled (<[g := VBool false]> vars) f =
  enabled (<[g := VBool true]> vars) f && negb (gated_by g f).
Proof.
  unfold enabled, gated_by, toggle_on. destruct (gate f) as [g'|]; [|done].
  destruct (decide (g' = g)) as [->|Hne].
  - rewrite !lookup_insert_eq. rewrite bool_decide_eq_true_2 by done. done.
  - rewrite !lookup_insert_ne by done.
    rewrite bool_decide_eq_false_2 by congruence. by rewrite andb_true_r.
Qed.

(** Switching a toggle off removes the fragments it gates from the
    composition, keeps the others in their order, and adds none. *)
Lemma select_toggle_off tpl vars addons g :
  select_fragments tpl (<[g := VBool false]> vars) addons =
  List.filter (λ f, negb (gated_by g f)) <$>
    select_fragments tpl (<[g := VBool true]> vars) addons.
Proof.
  unfold select_fragments.
  destruct (List.filter _ (elements addons)); [|done]. cbn.
  rewrite filter_filter_andb. f_equal.
  apply filter_ext_on. intros f _. apply enabled_toggle_off.
Qed.

Lemma addon_fragments_empty tpl : addon_fragments tpl ∅ = [].
Proof.
  unfold addon_fragments.
  induction (addon_groups tpl) as [|x l IH]; [done|]. cbn.
  rewrite bool_decide_eq_false_2 by set_solver. exact IH.
Qed.

Lemma select_fragments_empty tpl vars :
  select_fragments tpl vars ∅ = Ok (List.filter (enabled vars) (fragments tpl)).
Proof.
  unfold select_fragments. rewrite elements_empty. cbn.
  by rewrite addon_fragments_empty, app_nil_r.
Qed.

(** *** Rendering *)

(** A variable that a text does not mention does not matter to it. *)
Lemma expand_unreferenced vars g v v' t :
  (Ref g ∉ t) → expand (<[g := v]> vars) t = expand (<[g := v']> vars) t.
Proof.
  induction t as [|p t IH]; [done|].
  intros Hn. apply not_elem_of_cons in Hn as [Hp Hn].
  destruct p as [s|x]; cbn.
  - by rewrite IH.
  - assert (g ≠ x) by congruence.
    rewrite !lookup_insert_ne by done. by rewrite IH.
Qed.

Lemma render_fragment_unreferenced vars g v v' f :
  unreferenced g f →
  render_fragment (<[g := v]> vars) f = render_fragment (<[g := v']> vars) f.
Proof.
  intros [Hp Hc]. unfold render_fragment.
  by rewrite (expand_unreferenced vars g v v' _ Hp),
             (expand_unreferenced vars g v v' _ Hc).
Qed.

Lemma render_all_unreferenced vars g v v' l :
  Forall (unreferenced g) l →
  render_all (<[g := v]> vars) l = render_all (<[g := v']> vars) l.
Proof.
  induction 1 as [|f l Hf _ IH]; [done|]. cbn.
  by rewrite (render_fragment_unreferenced vars g v v' f Hf), IH.
Qed.

Lemma render_all_cons vars f l plan :
  render_all vars (f :: l) = Ok plan →
  ∃ e plan', render_fragment vars f = Ok e ∧ render_all vars l = Ok plan' ∧
             plan = e :: plan'.
Proof.
  cbn. destruct (render_fragment vars f) as [e|]; cbn; [|done].
  destruct (render_all vars l) as [plan'|]; cbn; [|done].
  intros [= <-]. eauto.
Qed.

Lemma render_all_elem vars l plan f e :
  render_all vars l = Ok plan → f ∈ l → render_fragment vars f = Ok e → e ∈ plan.
Proof.
  revert plan. induction l as [|f0 l IH]; intros plan Hr Hin He.
  - by apply elem_of_nil in Hin.
  - apply render_all_cons in Hr as (e0 & plan' & He0 & Hr & ->).
    apply elem_of_cons in Hin as [->|Hin].
    + rewrite He in He0. injection He0 as ->. left.
    + right. by eapply IH.
Qed.

(** Rendering fewer fragments gives the sub-plan of their entries; in a
    plan without duplicate destinations, the destination of a dropped
    fragment is not in the sub-plan. *)
Lemma render_all_filter vars (keep : Fragment → bool) l plan :
  render_all vars l = Ok plan →
  ∃ plan',
    render_all vars (List.filter keep l) = Ok plan' ∧
    sublist plan' plan ∧
    (NoDup (List.map dest plan) →
     ∀ f e, f ∈ l → keep f = false → render_fragment vars f = Ok e →
            dest e ∉ List.map dest plan').
Proof.
  revert plan. induction l as [|f0 l IH]; intros plan Hr.
  - injection Hr as <-. exists []. split; [done|]. split; [constructor|].
    intros _ f e Hin. by apply elem_of_nil in Hin.
  - pose proof Hr as Hr0.
    apply render_all_cons in Hr as (e0 & plan0 & He0 & Hr & ->).
    destruct (IH _ Hr) as (plan' & Hr' & Hsub & Hd).
    cbn [List.filter]. destruct (keep f0) eqn:Hk.
    + exists (e0 :: plan'). split; [cbn; by rewrite He0, Hr'|].
      split; [by constructor|].
      intros Hnd f e Hin Hkf He. cbn in Hnd. apply NoDup_cons in Hnd as [Hn0 Hnd].
      apply elem_of_cons in Hin as [->|Hin]; [congruence|].
      cbn. apply not_elem_of_cons. split; [|by eapply Hd].
      intros Heq. apply Hn0. rewrite <- Heq.
      apply list_elem_of_In, in_map, list_elem_of_In. by eapply render_all_elem.
    + exists plan'. split; [exact Hr'|]. split; [by constructor|].
      intros Hnd f e Hin Hkf He. cbn in Hnd. apply NoDup_cons in Hnd as [Hn0 Hnd].
      apply elem_of_cons in Hin as [->|Hin]; [|by eapply Hd].
      rewrite He in He0. injection He0 as ->.
      intros Hin'. apply Hn0.
      eapply elem_of_sublist; [exact Hin'|].
      clear -Hsub. induction Hsub; cbn; by constructor.
Qed.

Lemma conflict_None plan : conflict plan = None ↔ NoDup (List.map dest plan).
Proof.
  induction plan as [|e plan IH]; cbn.
  - split; [constructor|done].
  - case_bool_decide as Hin.
    + split; [done|]. intros Hnd. apply NoDup_cons in Hnd as [Hn _]. done.
    + rewrite IH. split.
      * intros Hnd. by constructor.
      * intros Hnd. by apply NoDup_cons in Hnd as [_ Hnd].
Qed.

Lemma sublist_map_dest (p1 p2 : list Entry) :
  sublist p1 p2 → sublist (List.map dest p1) (List.map dest p2).
Proof. induction 1; cbn; by constructor. Qed.

Lemma render_plan_Ok vars l plan :
  render_plan vars l = Ok plan ↔
  render_all vars l = Ok plan ∧ NoDup (List.map dest plan).
Proof.
  unfold render_plan. destruct (render_all vars l) as [p|]; cbn.
  - destruct (conflict p) as [d|] eqn:Hc.
    + split; [done|]. intros [[= ->] Hnd]. apply conflict_None in Hnd. congruence.
    + apply conflict_None in Hc. split.
      * by intros [= <-].
      * by intros [[= <-] _].
  - split; [done|]. by intros [? _].
Qed.

(** *** Writing *)

Lemma under_inj root d1 d2 : under root d1 = under root d2 → d1 = d2.
Proof. unfold under. intros [= H]. by apply app_inv_head in H. Qed.

Lemma mkdirs_step root d ds m m' :
  mkdirs root (d :: ds) m = Ok m' →
  (∀ c, m !! under root d ≠ Some (File c)) ∧
  mkdirs root ds (<[under root d := Dir]> m) = Ok m'.
Proof.
  cbn. destruct (m !! under root d) as [[|c]|] eqn:E; try done.
Qed.

Lemma insert_dir_subseteq (m : gmap Path Node) p :
  (∀ c, m !! p ≠ Some (File c)) → m ⊆ <[p := Dir]> m.
Proof.
  intros Hn. destruct (m !! p) as [[|c]|] eqn:E.
  - by rewrite insert_id.
  - by destruct (Hn c).
  - by apply insert_subseteq.
Qed.

(** Creating directories only adds directory nodes. *)
Lemma mkdirs_mono root ds m m' : mkdirs root ds m = Ok m' → m ⊆ m'.
Proof.
  revert m. induction ds as [|d ds IH]; intros m H.
  - by injection H as <-.
  - apply mkdirs_step in H as [Hn H].
    etrans; [by apply insert_dir_subseteq|]. by apply IH.
Qed.

Lemma mkdirs_files root ds m m' q c :
  mkdirs root ds m = Ok m' → m' !! q = Some (File c) → m !! q = Some (File c).
Proof.
  revert m. induction ds as [|d ds IH]; intros m H Hq.
  - by injection H as <-.
  - apply mkdirs_step in H as [Hn H].
    specialize (IH _ H Hq).
    destruct (decide (under root d = q)) as [<-|Hne].
    + by rewrite lookup_insert_eq in IH.
    + by rewrite lookup_insert_ne in IH.
Qed.

(** What succeeds in a file system succeeds in a smaller one. *)
Lemma mkdirs_sub root ds m1 m2 m2' :
  m1 ⊆ m2 → mkdirs root ds m2 = Ok m2' →
  ∃ m1', mkdirs root ds m1 = Ok m1' ∧ m1' ⊆ m2'.
Proof.
  revert m1 m2. induction ds as [|d ds IH]; intros m1 m2 Hsub H.
  - injection H as <-. by exists m1.
  - apply mkdirs_step in H as [Hn H].
    destruct (IH (<[under root d := Dir]> m1) _ (insert_mono _ _ _ _ Hsub) H)
      as (m1' & H1 & Hs).
    exists m1'. split; [|done]. cbn.
    destruct (m1 !! under root d) as [[|c]|] eqn:E; try done.
    destruct (Hn c). by eapply lookup_weaken.
Qed.

Lemma write_entry_Ok root e m m' :
  write_entry root e m = Ok m' ↔
  ∃ md, mkdirs root (dir_prefixes (dest e)) m = Ok md ∧
        md !! under root (dest e) = None ∧
        m' = <[under root (dest e) := File (content e)]> md.
Proof.
  unfold write_entry.
  destruct (mkdirs root _ m) as [md|]; cbn.
  - destruct (md !! under root (dest e)) eqn:E.
    + split; [done|]. intros (md' & [= <-] & Hn & _). congruence.
    + split.
      * intros [= <-]. eauto.
      * by intros (md' & [= <-] & _ & ->).
  - split; [done|]. by intros (md & ? & _).
Qed.

Lemma write_entry_mono root e m m' : write_entry root e m = Ok m' → m ⊆ m'.
Proof.
  intros (md & Hd & Hn & ->)%write_entry_Ok.
  etrans; [by eapply mkdirs_mono|]. by apply insert_subseteq.
Qed.

Lemma write_entry_sub root e m1 m2 m2' :
  m1 ⊆ m2 → write_entry root e m2 = Ok m2' →
  ∃ m1', write_entry root e m1 = Ok m1' ∧ m1' ⊆ m2'.
Proof.
  intros Hsub (md2 & Hd & Hn & ->)%write_entry_Ok.
  destruct (mkdirs_sub _ _ _ _ _ Hsub Hd) as (md1 & Hd1 & Hs).
  exists (<[under root (dest e) := File (content e)]> md1).
  split; [|by apply insert_mono].
  apply write_entry_Ok. exists md1. split; [done|]. split; [|done].
  by eapply lookup_weaken_None.
Qed.

Lemma write_entries_cons root e plan m m' :
  write_entries root (e :: plan) m = Ok m' →
  ∃ m1, write_entry root e m = Ok m1 ∧ write_entries root plan m1 = Ok m'.
Proof.
  cbn. destruct (write_entry root e m) as [m1|]; cbn; [eauto|done].
Qed.

Lemma write_entries_mono root plan m m' :
  write_entries root plan m = Ok m' → m ⊆ m'.
Proof.
  revert m. induction plan as [|e plan IH]; intros m H.
  - by injection H as <-.
  - apply write_entries_cons in H as (m1 & H1 & H).
    etrans; [by eapply write_entry_mono|]. by apply IH.
Qed.

(** Writing a sub-plan into a smaller file system succeeds where the plan
    does, and gives a smaller file system. *)
Lemma write_entries_sub root p1 p2 m1 m2 m2' :
  sublist p1 p2 → m1 ⊆ m2 → write_entries root p2 m2 = Ok m2' →
  ∃ m1', write_entries root p1 m1 = Ok m1' ∧ m1' ⊆ m2'.
Proof.
  intros Hl. revert m1 m2. induction Hl as [|e p1 p2 Hl IH|e p1 p2 Hl IH];
    intros m1 m2 Hsub H.
  - exists m1. split; [done|]. etrans; [done|]. by eapply write_entries_mono.
  - apply write_entries_cons in H as (m2a & H2 & H).
    destruct (write_entry_sub _ _ _ _ _ Hsub H2) as (m1a & H1 & Hs).
    destruct (IH _ _ Hs H) as (m1' & H1' & Hs').
    exists m1'. split; [|done]. cbn. by rewrite H1.
  - apply write_entries_cons in H as (m2a & H2 & H).
    apply (IH m1 m2a); [|done].
    etrans; [done|]. by eapply write_entry_mono.
Qed.

(** Every entry of a written plan is a file of the result, at a place
    that was free before. *)
Lemma write_entries_written root plan m m' e :
  write_entries root plan m = Ok m' → e ∈ plan →
  m' !! under root (dest e) = Some (File (content e)) ∧
  m !! under root (dest e) = None.
Proof.
  revert m. induction plan as [|e0 plan IH]; intros m H Hin.
  - by apply elem_of_nil in Hin.
  - apply write_entries_cons in H as (m1 & H1 & H).
    apply elem_of_cons in Hin as [->|Hin].
    + pose proof H1 as (md & Hd & Hn & ->)%write_entry_Ok. split.
      * eapply lookup_weaken; [|by eapply write_entries_mono].
        apply lookup_insert_eq.
      * eapply lookup_weaken_None; [exact Hn|]. by eapply mkdirs_mono.
    + destruct (IH _ H Hin) as [Hw Hf]. split; [done|].
      eapply lookup_weaken_None; [exact Hf|]. by eapply write_entry_mono.
Qed.

(** The files of a written plan are those of before and its entries. *)
Lemma write_entries_files root plan m m' q c :
  write_entries root plan m = Ok m' → m' !! q = Some (File c) →
  m !! q = Some (File c) ∨ ∃ e, e ∈ plan ∧ q = under root (dest e).
Proof.
  revert m. induction plan as [|e0 plan IH]; intros m H Hq.
  - injection H as <-. by left.
  - apply write_entries_cons in H as (m1 & H1 & H).
    destruct (IH _ H Hq) as [Hq1|(e & Hin & ->)].
    + apply write_entry_Ok in H1 as (md & Hd & Hn & ->).
      destruct (decide (under root (dest e0) = q)) as [<-|Hne].
      * right. exists e0. split; [left|done].
      * rewrite lookup_insert_ne in Hq1 by done. left. by eapply mkdirs_files.
    + right. exists e. split; [by right|done].
Qed.

Lemma write_Ok plan target f f' :
  write plan target f = (f', Ok tt) ↔
  path_exists f target = false ∧
  ∃ m, write_entries (Path.absolute (cwd f) target) plan
         (<[Path.absolute (cwd f) target := Dir]> (nodes f)) = Ok m ∧
       f' = mkFS (cwd f) m.
Proof.
  unfold write. destruct (path_exists f target); [split; [done|by intros [? _]]|].
  destruct (write_entries _ plan _) as [m|]; cbn.
  - split.
    + intros [= <-]. eauto.
    + by intros (_ & m' & [= <-] & ->).
  - split; [done|]. by intros (_ & m' & ? & _).
Qed.

(** *** A toggle switched off *)

Lemma elem_of_List_filter {A} (p : A → bool) l x :
  x ∈ List.filter p l ↔ x ∈ l ∧ p x = true.
Proof. rewrite !list_elem_of_In. apply filter_In. Qed.

Lemma plan_of_empty_Ok tpl vars plan :
  plan_of tpl vars ∅ = Ok plan ↔
  render_all vars (List.filter (enabled vars) (fragments tpl)) = Ok plan ∧
  NoDup (List.map dest plan).
Proof.
  unfold plan_of. rewrite select_fragments_empty. cbn. apply render_plan_Ok.
Qed.

(** With toggle [g] only a gate, the plan with [g] off is the sub-plan of
    the plan with [g] on that leaves out the fragments gated by [g]. *)
Lemma plan_of_toggle_off tpl vars g plan_on :
  Forall (unreferenced g) (fragments tpl) →
  plan_of tpl (<[g := VBool true]> vars) ∅ = Ok plan_on →
  ∃ plan_off,
    plan_of tpl (<[g := VBool false]> vars) ∅ = Ok plan_off ∧
    sublist plan_off plan_on ∧
    ∀ f e, f ∈ fragments tpl → gate f = Some g →
           render_fragment (<[g := VBool true]> vars) f = Ok e →
           e ∈ plan_on ∧ dest e ∉ List.map dest plan_off.
Proof.
  intros Hun [Hr Hnd]%plan_of_empty_Ok.
  destruct (render_all_filter _ (λ f, negb (gated_by g f)) _ _ Hr)
    as (plan_off & Hoff & Hsub & Hd).
  exists plan_off. split; [|split; [done|]].
  - apply plan_of_empty_Ok. split.
    + rewrite <- Hoff, filter_filter_andb.
      rewrite (filter_ext_on _ _ _ (λ f _, enabled_toggle_off vars g f)).
      apply render_all_unreferenced.
      apply Forall_forall. intros f [Hin _]%elem_of_List_filter.
      by eapply Forall_forall in Hun.
    + exact (sublist_NoDup _ _ Hnd (sublist_map_dest _ _ Hsub)).
  - intros f e Hin Hg He.
    assert (Hsel : f ∈ List.filter (enabled (<[g := VBool true]> vars)) (fragments tpl)).
    { apply elem_of_List_filter. split; [done|].
      unfold enabled, toggle_on. rewrite Hg. by rewrite lookup_insert_eq. }
    split; [by eapply render_all_elem|].
    eapply Hd; [done|exact Hsel| |exact He].
    unfold gated_by. by rewrite bool_decide_eq_true_2.
Qed.

Lemma generate_Ok cat st target vars addons f f' tpl :
  find_template cat st = Some tpl →
  generate cat st target vars addons f = (f', Ok tt) ↔
  ∃ plan, plan_of tpl vars addons = Ok plan ∧ write plan target f = (f', Ok tt).
Proof.
  intros Hf. unfold generate. rewrite Hf.
  destruct (plan_of tpl vars addons) as [plan|e].
  - split; [eauto|]. by intros (plan' & [= <-] & ?).
  - split; [done|]. by intros (plan' & ? & _).
Qed.

(** Switching off a toggle that is only a gate: generation still
    succeeds, the tree it makes is within the tree made with the toggle
    on, and the files of the gated fragments, which the latter has, are
    not in it. *)
Lemma generate_toggle_off cat st tpl target vars g f f_on :
  find_template cat st = Some tpl →
  Forall (unreferenced g) (fragments tpl) →
  generate cat st target (<[g := VBool true]> vars) ∅ f = (f_on, Ok tt) →
  ∃ f_off,
    generate cat st target (<[g := VBool false]> vars) ∅ f = (f_off, Ok tt) ∧
    nodes f_off ⊆ nodes f_on ∧
    ∀ fr e, fr ∈ fragments tpl → gate fr = Some g →
            render_fragment (<[g := VBool true]> vars) fr = Ok e →
            let p := under (Path.absolute (cwd f) target) (dest e) in
            nodes f_on !! p = Some (File (content e)) ∧ nodes f_off !! p = None.
Proof.
  intros Hf Hun Hg.
  apply (generate_Ok _ _ _ _ _ _ _ _ Hf) in Hg as (plan_on & Hp & Hw).
  apply write_Ok in Hw as (Hex & m_on & Hw & ->).
  destruct (plan_of_toggle_off _ _ _ _ Hun Hp) as (plan_off & Hp' & Hsub & Hd).
  destruct (write_entries_sub _ _ _ _ _ _ Hsub (reflexivity _) Hw)
    as (m_off & Hw' & Hm).
  exists (mkFS (cwd f) m_off). split; [|split; [exact Hm|]].
  - apply (generate_Ok _ _ _ _ _ _ _ _ Hf). exists plan_off. split; [done|].
    apply write_Ok. eauto.
  - intros fr e Hin Hgate He p. cbn.
    destruct (Hd _ _ Hin Hgate He) as [Hon Hnot].
    destruct (write_entries_written _ _ _ _ _ Hw Hon) as [Hfile Hfree].
    split; [exact Hfile|].
    destruct (m_off !! p) as [n|] eqn:E; [|done]. exfalso.
    pose proof (lookup_weaken _ _ _ _ E Hm) as E'.
    subst p. rewrite Hfile in E'. injection E' as <-.
    destruct (write_entries_files _ _ _ _ _ _ Hw' E) as [H0|(e' & Hin' & Heq)].
    + congruence.
    + apply under_inj in Heq. apply Hnot. rewrite Heq.
      by apply list_elem_of_In, in_map, list_elem_of_In.
Qed.

End EngineFacts.

(** The container flag is one binding of the context of [create]. *)
Lemma variables_docker nm port pv nd nd0 nt :
  variables nm port pv nd nt =
  <["include_docker" := VBool (negb nd)]> (variables nm port pv nd0 nt).
Proof.
  unfold variables.
  rewrite (insert_insert_ne _ "include_docker" "include_tests") by done.
  by rewrite insert_insert_eq.
Qed.

Lemma renderer_render_Ok cat st target vars f f' :
  render (Engine.renderer cat) st target vars f = (f', None) ↔
  Engine.generate cat st target vars ∅ f = (f', Engine.Ok tt).
Proof.
  cbn. destruct (Engine.generate cat st target vars ∅ f) as [f1 [[]|e]].
  - split; by intros [= <-].
  - split; by intros [=].
Qed.

(** The run of [create] that returns normally is the one that renders. *)
Lemma create_returns validate r nm st port pv ad nd nt od w :
  fst (create validate r nm st port pv ad nd nt od w) = Return tt ↔
  valid (validate nm) = true ∧
  path_exists (fs w) (target_dir od nm (fs w)) = false ∧
  is_Some (get_template_info r st) ∧
  ∃ f', render r st (target_dir od nm (fs w)) (variables nm port pv nd nt) (fs w)
        = (f', None) ∧
        fs (snd (create validate r nm st port pv ad nd nt od w)) = f'.
Proof.
  rewrite create_run. unfold create_cases.
  destruct (valid (validate nm)); cbn; [|split; [done|by intros [? _]]].
  destruct (path_exists _ _); cbn; [split; [done|by intros (_ & ? & _)]|].
  destruct (get_template_info r st) as [d|]; cbn.
  2: { split; [done|]. by intros (_ & _ & [? ?] & _). }
  destruct (render r st _ _ (fs w)) as [f' [cause|]]; cbn.
  - split; [done|]. by intros (_ & _ & _ & f'' & ? & _).
  - split; [|done]. intros _. repeat split; eauto.
Qed.

(** C6: for every template, switching a toggle off removes from the
    composition the fragments that the toggle gates and changes nothing
    else; and for [--no-docker], whose flag the templates use as a gate
    only: where [create] succeeds without the option it succeeds with it,
    the tree it makes is within the tree made without the option, every
    container fragment has its file in the latter and none in the
    former. *)
Theorem toggle_off_only_removes cat tpl validate nm st port pv ad nt od w :
  (∀ vars addons g,
     Engine.select_fragments tpl (<[g := VBool false]> vars) addons =
     List.filter (λ f, negb (Engine.gated_by g f)) <$>
       Engine.select_fragments tpl (<[g := VBool true]> vars) addons)
  ∧ (Engine.find_template cat st = Some tpl →
     Forall (Engine.unreferenced "include_docker") (Engine.fragments tpl) →
     let run nd := create validate (Engine.renderer cat) nm st port pv ad nd nt od w in
     fst (run false) = Return tt →
     fst (run true) = Return tt
     ∧ nodes (fs (snd (run true))) ⊆ nodes (fs (snd (run false)))
     ∧ ∀ f e,
         f ∈ Engine.fragments tpl → Engine.gate f = Some "include_docker" →
         Engine.render_fragment (variables nm port pv false nt) f = Engine.Ok e →
         let p := Engine.under (Path.absolute (cwd (fs w)) (target_dir od nm (fs w)))
                    (Engine.dest e) in
         nodes (fs (snd (run false))) !! p = Some (File (Engine.content e)) ∧
         nodes (fs (snd (run true))) !! p = None).
Proof.
  split; [intros vars addons g; apply select_toggle_off|].
  intros Hf Hun run Hon. subst run. cbn beta in *.
  apply create_returns in Hon as (Hv & He & Hi & f_on & Hr & Hfs).
  rewrite Hfs. clear Hfs.
  apply renderer_render_Ok in Hr.
  rewrite (variables_docker nm port pv false false nt) in Hr. cbn [negb] in Hr.
  destruct (generate_toggle_off _ _ _ _ _ _ _ _ Hf Hun Hr) as (f_off & Hg & Hsub & Hfiles).
  assert (Hoff : render (Engine.renderer cat) st (target_dir od nm (fs w))
                   (variables nm port pv true nt) (fs w) = (f_off, None)).
  { apply renderer_render_Ok.
    by rewrite (variables_docker nm port pv true false nt). }
  assert (Hret : fst (create validate (Engine.renderer cat) nm st port pv ad true nt od w)
                 = Return tt).
  { apply create_returns. repeat split; try done.
    exists f_off. split; [done|].
    rewrite create_run. unfold create_cases. rewrite Hv, He. cbn [negb].
    destruct Hi as [d Hd]. rewrite Hd, Hoff. done. }
  split; [exact Hret|].
  apply create_returns in Hret as (_ & _ & _ & f' & Hr' & ->).
  rewrite Hoff in Hr'. injection Hr' as <-.
  split; [exact Hsub|].
  intros f e Hin Hgate Hren.
  rewrite (variables_docker nm port pv false false nt) in Hren.
  exact (Hfiles f e Hin Hgate Hren).
Qed.

Lemma toggle_off_only_removes_witness :
  let run nd := create Scenario.validator (Engine.renderer Scenario.catalog)
                  "orders" "rest" 8000 "3.11" None nd false None Scenario.fresh in
  let dockerfile := Path.parse "/home/dev/orders/Dockerfile" in
  Forall (Engine.unreferenced "include_docker") (Engine.fragments Scenario.rest) ∧
  fst (run false) = Return tt ∧
  fst (run true) = Return tt ∧
  nodes (fs (snd (run false))) !! dockerfile = Some (File "FROM python:3.11 EXPOSE 8000") ∧
  nodes (fs (snd (run true))) !! dockerfile = None.
Proof.
  intros run dockerfile.
  assert (Hun : Forall (Engine.unreferenced "include_docker")
                  (Engine.fragments Scenario.rest)).
  { repeat constructor; intros H; cbn in H; in_list H; discriminate. }
  assert (Hon : fst (run false) = Return tt) by (vm_compute; reflexivity).
  destruct (proj2 (toggle_off_only_removes Scenario.catalog Scenario.rest
    Scenario.validator "orders" "rest" 8000 "3.11" None false None Scenario.fresh)
    eq_refl Hun Hon) as (Hoff & _ & Hfiles).
  split; [exact Hun|]. split; [exact Hon|]. split; [exact Hoff|].
  refine (Hfiles (Engine.mkFragment (Some "include_docker") [Engine.Text "Dockerfile"]
            [Engine.Text "FROM python:"; Engine.Ref "python_version";
             Engine.Text " EXPOSE "; Engine.Ref "port"])
          (Engine.mkEntry ["Dockerfile"] "FROM python:3.11 EXPOSE 8000") _ eq_refl _).
  - cbn. do 2 apply list_elem_of_further. apply list_elem_of_here.
  - vm_compute; reflexivity.
Defined.

(** ** More on [create], [list] and [version] *)

Lemma trace_emitted validate r nm st port pv ad nd nt od w :
  trace (snd (create validate r nm st port pv ad nd nt od w)) =
  trace w ++ emitted validate r nm st port pv ad nd nt od w.
Proof.
  unfold emitted. rewrite create_run. unfold create_cases.
  repeat (match goal with
          | |- context [if ?b then _ else _] => destruct b
          | |- context [match ?x with _ => _ end] => destruct x
          end); cbn [snd trace]; by rewrite drop_app_length.
Qed.

(** Splits a goal on [create] into the five ways a run can go. *)
Ltac create_split :=
  unfold emitted, reaches_render; rewrite ?create_run; unfold create_cases;
  let Hv := fresh "Hv" in let He := fresh "He" in
  let Hi := fresh "Hi" in let Hr := fresh "Hr" in
  destruct (valid _) eqn:Hv; cbn [negb andb];
  [ destruct (path_exists _ _) eqn:He; cbn [negb andb];
    [ | destruct (get_template_info _ _) as [?d|] eqn:Hi;
        [ destruct (render _ _ _ _ _) as [?f' [?cause|]] eqn:Hr | ] ]
  | ];
  cbn [fst snd fs trace]; rewrite ?drop_app_length;
  rewrite ?bool_decide_eq_true_2 by eauto;
  rewrite ?bool_decide_eq_false_2 by (by intros [? ?]).

(** X1: [create] changes the file system through the render step alone.
    When one of the three checks stops it the file system is as before;
    otherwise it is what [render] left, also when [render] raised: the
    command cleans nothing up after a failed render. *)
Theorem create_fs_through_render validate r nm st port pv ad nd nt od w :
  let res := create validate r nm st port pv ad nd nt od w in
  let rendered := render r st (target_dir od nm (fs w))
                    (variables nm port pv nd nt) (fs w) in
  fs (snd res) = (if reaches_render validate r nm st od w then fst rendered else fs w)
  ∧ (reaches_render validate r nm st od w = true →
     ∀ cause, snd rendered = Some cause →
       fst res = Raise (TyperExit 1) ∧ fs (snd res) = fst rendered).
Proof.
  cbn zeta. split.
  - create_split; done.
  - create_split; try done.
    all: intros _ c Hc; cbn in Hc; done.
Qed.

Lemma create_fs_through_render_witness :
  reaches_render Scenario.validator Scenario.failing_renderer "orders" "rest" None
    Scenario.fresh = true ∧
  fst (create Scenario.validator Scenario.failing_renderer
         "orders" "rest" 8000 "3.11" None false false None Scenario.fresh) =
    Raise (TyperExit 1).
Proof.
  assert (H : reaches_render Scenario.validator Scenario.failing_renderer "orders"
                "rest" None Scenario.fresh = true) by (vm_compute; reflexivity).
  split; [exact H|].
  exact (proj1 (proj2 (create_fs_through_render Scenario.validator
    Scenario.failing_renderer "orders" "rest" 8000 "3.11" None false false None
    Scenario.fresh) H "No space left on device" eq_refl)).
Defined.

(** X2: [create] calls its collaborators in one order, validator, existence
    check, template lookup, renderer, each at most once and each only after
    the ones before it; the validator is always called, and the renderer
    exactly when the three checks pass. *)
Theorem create_call_order validate r nm st port pv ad nd nt od w :
  let evs := emitted validate r nm st port pv ad nd nt od w in
  let t := target_dir od nm (fs w) in
  List.filter is_call evs `prefix_of`
    [CallValidate nm; CallExists t; CallGetTemplateInfo st;
     CallRender st t (variables nm port pv nd nt)]
  ∧ head evs = Some (CallValidate nm)
  ∧ count is_render_call evs = (if reaches_render validate r nm st od w then 1 else 0).
Proof.
  cbn zeta. create_split.
  - split; [|done]. cbn. by eexists [_; _].
  - split; [|done]. cbn. by exists [].
  - split; [|done]. cbn. by exists [].
  - split; [|done]. cbn. by eexists [_].
  - unfold events_invalid. split; [|by destruct (truthy _)].
    destruct (truthy _); cbn; by eexists [_; _; _].
Qed.

(** X3: a run of [create] prints at most one verdict line, never a success
    line and an error line both: when it returns it has printed one success
    line and no error line, and when it exits with status 1 it has printed
    one error line and no success line. *)
Theorem create_one_verdict validate r nm st port pv ad nd nt od w :
  let res := create validate r nm st port pv ad nd nt od w in
  let evs := emitted validate r nm st port pv ad nd nt od w in
  (count is_ui_success evs + count is_ui_error evs ≤ 1)%nat
  ∧ (fst res = Return tt →
     count is_ui_success evs = 1 ∧ count is_ui_error evs = 0)
  ∧ (fst res = Raise (TyperExit 1) →
     count is_ui_success evs = 0 ∧ count is_ui_error evs = 1).
Proof.
  cbn zeta. create_split.
  1-4: split; [cbn; lia|]; split; intros H; try discriminate H; done.
  unfold events_invalid.
  destruct (truthy _); (split; [cbn; lia|]); split; intros H;
    try discriminate H; done.
Qed.

Lemma create_one_verdict_witness :
  let res := create Scenario.validator Scenario.failing_renderer
               "orders" "rest" 8000 "3.11" None false false None Scenario.fresh in
  let evs := emitted Scenario.validator Scenario.failing_renderer
               "orders" "rest" 8000 "3.11" None false false None Scenario.fresh in
  fst res = Raise (TyperExit 1) ∧
  count is_ui_success evs = 0 ∧ count is_ui_error evs = 1.
Proof.
  cbn zeta.
  assert (H : fst (create Scenario.validator Scenario.failing_renderer
                "orders" "rest" 8000 "3.11" None false false None Scenario.fresh)
              = Raise (TyperExit 1)) by (vm_compute; reflexivity).
  split; [exact H|].
  exact (proj2 (proj2 (create_one_verdict Scenario.validator Scenario.failing_renderer
    "orders" "rest" 8000 "3.11" None false false None Scenario.fresh)) H).
Defined.

(** X4: the progress display that [create] opens is closed again, once,
    also when [render] raises; the task is marked complete only when
    [render] returned, and the error of a failed render is printed after
    the display is closed. *)
Theorem create_progress_bracket validate r nm st port pv ad nd nt od w :
  let res := create validate r nm st port pv ad nd nt od w in
  let evs := emitted validate r nm st port pv ad nd nt od w in
  count is_progress_exit evs = count is_progress_enter evs
  ∧ count is_progress_enter evs = (if reaches_render validate r nm st od w then 1 else 0)
  ∧ count is_progress_update evs = (if returned (fst res) then 1 else 0)
  ∧ (∀ f' cause,
       reaches_render validate r nm st od w = true →
       render r st (target_dir od nm (fs w)) (variables nm port pv nd nt) (fs w)
         = (f', Some cause) →
       ∃ pre, evs = pre ++ [UiProgressExit; UiError ("Failed to create service: " +:+ cause)]
              ∧ count is_progress_update pre = 0).
Proof.
  cbn zeta. create_split.
  - repeat split; try done.
  - repeat split; try done.
    intros f'' c _ [= <- <-]. by eexists [_; _; _; _; _; _; _].
  - repeat split; try done.
  - repeat split; try done.
  - unfold events_invalid. destruct (truthy _); repeat split; try done.
Qed.

Lemma create_progress_bracket_witness :
  reaches_render Scenario.validator Scenario.failing_renderer "orders" "rest" None
    Scenario.fresh = true ∧
  ∃ pre, emitted Scenario.validator Scenario.failing_renderer
           "orders" "rest" 8000 "3.11" None false false None Scenario.fresh =
         pre ++ [UiProgressExit;
                 UiError "Failed to create service: No space left on device"].
Proof.
  assert (H : reaches_render Scenario.validator Scenario.failing_renderer "orders"
                "rest" None Scenario.fresh = true) by (vm_compute; reflexivity).
  split; [exact H|].
  destruct (proj2 (proj2 (proj2 (create_progress_bracket Scenario.validator
    Scenario.failing_renderer "orders" "rest" 8000 "3.11" None false false None
    Scenario.fresh))) (fs Scenario.fresh) "No space left on device" H eq_refl)
    as (pre & Hpre & _).
  exists pre. exact Hpre.
Defined.

(** X5: how [create] words the rejection of a name.  The error line is the
    validator's error, or [Invalid service name] when the validator gave
    none or an empty one; the suggestion line is printed only for a
    suggestion that is not empty, and then last. *)
Theorem create_rejection_lines validate r nm st port pv ad nd nt od w :
  valid (validate nm) = false →
  let evs := emitted validate r nm st port pv ad nd nt od w in
  let v := validate nm in
  (error v = None ∨ error v = Some EmptyString →
   evs !! 1 = Some (UiError "Invalid service name"))
  ∧ (∀ c msg, error v = Some (String c msg) → evs !! 1 = Some (UiError (String c msg)))
  ∧ (suggestion v = None ∨ suggestion v = Some EmptyString → length evs = 2)
  ∧ (∀ c s, suggestion v = Some (String c s) →
       length evs = 3 ∧ evs !! 2 = Some (UiInfo ("Suggestion: " +:+ String c s))).
Proof.
  intros Hv. cbn zeta. unfold emitted. rewrite create_run. unfold create_cases.
  rewrite Hv. cbn [negb snd trace]. rewrite drop_app_length. unfold events_invalid.
  split; [|split; [|split]].
  - intros [->| ->]; done.
  - by intros c msg ->.
  - intros [->| ->]; done.
  - by intros c s ->.
Qed.

Lemma create_rejection_lines_witness :
  let silent := fun _ : string => mkValidation false (Some EmptyString) (Some EmptyString) in
  valid (silent "orders") = false ∧
  emitted silent (Engine.renderer Scenario.catalog)
    "orders" "rest" 8000 "3.11" None false false None Scenario.fresh !! 1 =
    Some (UiError "Invalid service name").
Proof.
  intros silent. split; [reflexivity|].
  exact (proj1 (create_rejection_lines silent (Engine.renderer Scenario.catalog)
    "orders" "rest" 8000 "3.11" None false false None Scenario.fresh eq_refl)
    (or_intror eq_refl)).
Defined.

(** X6: the variable context of [create] has the five keys
    [project_name], [port], [python_version], [include_docker] and
    [include_tests] and no other: the add-ons, the service type and the
    target are not in it; and so it is in every call of the renderer. *)
Theorem create_context_keys validate r nm st port pv ad nd nt od w :
  dom (variables nm port pv nd nt) = variable_keys
  ∧ size (variables nm port pv nd nt) = 5
  ∧ ∀ st' p vars,
      CallRender st' p vars ∈ emitted validate r nm st port pv ad nd nt od w →
      dom vars = variable_keys.
Proof.
  assert (Hd : dom (variables nm port pv nd nt) = variable_keys).
  { unfold variables, variable_keys. rewrite !dom_insert_L, dom_empty_L. set_solver. }
  split; [exact Hd|]. split.
  - unfold variables.
    rewrite !map_size_insert_None, map_size_empty;
      rewrite ?lookup_insert_ne by done; done.
  - intros st' p vars Hin.
    destruct (create_cases_render_call validate r nm st port pv nd nt od w)
      as (evs & Ht & Hc).
    rewrite <- create_run with (ad := ad) in Ht.
    rewrite trace_emitted in Ht. apply app_inv_head in Ht. subst evs.
    by destruct (Hc _ _ _ Hin) as (_ & _ & ->).
Qed.

Lemma create_context_keys_witness :
  ∃ p vars,
    CallRender "rest" p vars ∈
      emitted Scenario.validator (Engine.renderer Scenario.catalog)
        "orders" "rest" 8000 "3.11" (Some ["auth"]) false false None Scenario.fresh ∧
    dom vars = variable_keys.
Proof.
  exists (Path.parse "/home/dev/orders"), (variables "orders" 8000 "3.11" false false).
  assert (Hin : CallRender "rest" (Path.parse "/home/dev/orders")
                  (variables "orders" 8000 "3.11" false false) ∈
                emitted Scenario.validator (Engine.renderer Scenario.catalog)
                  "orders" "rest" 8000 "3.11" (Some ["auth"]) false false None
                  Scenario.fresh).
  { vm_compute. repeat first [apply list_elem_of_here | apply list_elem_of_further]. }
  split; [exact Hin|].
  exact (proj2 (proj2 (create_context_keys Scenario.validator
    (Engine.renderer Scenario.catalog) "orders" "rest" 8000 "3.11" (Some ["auth"])
    false false None Scenario.fresh)) _ _ _ Hin).
Defined.

(** X7: for a listing that is not empty, [list] prints one table and
    nothing else: its header is name, description, version, and it has one
    row per template, in the order of the listing, each with those three
    cells. *)
Theorem list_templates_table r w :
  list_templates r ≠ [] →
  ∃ rows,
    list_templates_cmd r w =
      (Return tt,
       mkWorld (fs w)
         (trace w ++
          [CallListTemplates;
           UiTable "Available Templates" ["Name"; "Description"; "Version"] rows]))
    ∧ length rows = length (list_templates r)
    ∧ Forall (λ row, length row = 3) rows
    ∧ ∀ i t, list_templates r !! i = Some t →
             rows !! i = Some [name t; description t; version t].
Proof.
  intros Hne.
  exists (List.map (λ t, [name t; description t; version t]) (list_templates r)).
  split; [|split; [|split]].
  - run_cli. destruct (list_templates r) as [|t l]; [done|].
    cbn. by rewrite <- app_assoc.
  - apply length_map.
  - apply Forall_forall. intros row Hin.
    apply list_elem_of_In, in_map_iff in Hin as (t & <- & _). done.
  - intros i t Hi.
    change (List.map ?f ?l) with (f <$> l). by rewrite list_lookup_fmap, Hi.
Qed.

Lemma list_templates_table_witness :
  list_templates (Engine.renderer Scenario.catalog) ≠ [] ∧
  list_templates_cmd (Engine.renderer Scenario.catalog) Scenario.fresh =
    (Return tt,
     mkWorld (fs Scenario.fresh)
       [CallListTemplates;
        UiTable "Available Templates" ["Name"; "Description"; "Version"]
          [["rest"; "REST API service"; "0.1.0"]]]).
Proof.
  assert (Hne : list_templates (Engine.renderer Scenario.catalog) ≠ []) by done.
  split; [exact Hne|].
  destruct (list_templates_table (Engine.renderer Scenario.catalog) Scenario.fresh Hne)
    as (rows & Hrun & Hlen & _ & Hrow).
  rewrite Hrun. specialize (Hrow 0 _ eq_refl).
  destruct rows as [|row [|row' rows]]; [done| |done].
  injection Hrow as ->. reflexivity.
Defined.

Lemma replace_char_length a b s :
  String.length (replace_char a b s) = String.length s.
Proof. induction s as [|c s IH]; cbn; [done|]. by rewrite IH. Qed.

Lemma replace_char_gone a b s :
  a ≠ b → a ∉ list_ascii_of_string (replace_char a b s).
Proof.
  intros Hab. induction s as [|c s IH]; cbn; [apply not_elem_of_nil|].
  apply not_elem_of_cons. split; [|exact IH].
  destruct (Ascii.eqb_spec c a); congruence.
Qed.

Lemma replace_char_absent a b s :
  (a ∉ list_ascii_of_string s) → replace_char a b s = s.
Proof.
  induction s as [|c s IH]; cbn; [done|].
  intros Hn. apply not_elem_of_cons in Hn as [Hc Hn].
  destruct (Ascii.eqb_spec c a); [congruence|]. by rewrite IH.
Qed.

(** X8: the module name in the [uvicorn] hint that [create] prints is the
    service name with every dash turned into an underscore: it has no dash,
    the length of the name, and is the name itself when that has no dash;
    the [cd] hint keeps the name as it is.  Both are printed when [create]
    returns. *)
Theorem create_uvicorn_hint validate r nm st port pv ad nd nt od w :
  let m := replace_char "-"%char "_"%char nm in
  let evs := emitted validate r nm st port pv ad nd nt od w in
  ("-"%char ∉ list_ascii_of_string m)
  ∧ String.length m = String.length nm
  ∧ (("-"%char ∉ list_ascii_of_string nm) → m = nm)
  ∧ (fst (create validate r nm st port pv ad nd nt od w) = Return tt →
     UiPrint ("  cd " +:+ nm) ∈ evs ∧
     UiPrint ("  uv run uvicorn " +:+ m +:+ ".main:app --reload") ∈ evs).
Proof.
  cbn zeta. split; [by apply replace_char_gone|].
  split; [apply replace_char_length|]. split; [apply replace_char_absent|].
  create_split; try done. intros _.
  split; cbn; repeat first [apply list_elem_of_here | apply list_elem_of_further].
Qed.

Lemma create_uvicorn_hint_witness :
  fst (create Scenario.validator (Engine.renderer Scenario.catalog)
         "order-api" "rest" 8000 "3.11" None false false None Scenario.fresh) = Return tt ∧
  UiPrint "  uv run uvicorn order_api.main:app --reload" ∈
    emitted Scenario.validator (Engine.renderer Scenario.catalog)
      "order-api" "rest" 8000 "3.11" None false false None Scenario.fresh.
Proof.
  assert (H : fst (create Scenario.validator (Engine.renderer Scenario.catalog)
                "order-api" "rest" 8000 "3.11" None false false None Scenario.fresh)
              = Return tt) by (vm_compute; reflexivity).
  split; [exact H|].
  exact (proj2 (proj2 (proj2 (proj2 (create_uvicorn_hint Scenario.validator
    (Engine.renderer Scenario.catalog) "order-api" "rest" 8000 "3.11" None
    false false None Scenario.fresh))) H)).
Defined.

(** X9: the edges of the default target [Path.cwd() / name].  A name that
    starts with a slash replaces the working directory altogether; any
    other name gives a path that extends the working directory; the empty
    name and [.] give the working directory itself, so that [create], if
    the validator lets such a name through, refuses it as an existing
    directory. *)
Theorem default_target_edges validate r nm st port pv ad nd nt w :
  let t := target_dir None nm (fs w) in
  (starts_with_slash nm = true → t = Path.parse nm)
  ∧ (starts_with_slash nm = false →
     Path.root t = Path.root (cwd (fs w)) ∧
     Path.parts (cwd (fs w)) `prefix_of` Path.parts t)
  ∧ (nm = EmptyString ∨ nm = "." →
     t = cwd (fs w) ∧
     (valid (validate nm) = true →
      path_exists (fs w) (cwd (fs w)) = true →
      create validate r nm st port pv ad nd nt None w =
        (Raise (TyperExit 1),
         mkWorld (fs w)
           (trace w ++
            [CallValidate nm; CallExists (cwd (fs w));
             UiError ("Directory '" +:+ Path.str (cwd (fs w)) +:+ "' already exists")])))).
Proof.
  cbn zeta. unfold target_dir, Path.join. split; [by intros ->|]. split.
  - intros ->. cbn. split; [done|]. by eexists.
  - intros Hnm.
    assert (Ht : target_dir None nm (fs w) = cwd (fs w)).
    { unfold target_dir, Path.join. destruct Hnm as [-> | ->]; cbn;
        rewrite app_nil_r; by destruct (cwd (fs w)). }
    split; [exact Ht|]. intros Hv He.
    rewrite create_run. unfold create_cases. rewrite Hv, Ht, He. done.
Qed.

Lemma default_target_edges_witness :
  let lax := fun _ : string => mkValidation true None None in
  valid (lax ".") = true ∧
  path_exists (fs Scenario.fresh) (cwd (fs Scenario.fresh)) = true ∧
  fst (create lax (Engine.renderer Scenario.catalog)
         "." "rest" 8000 "3.11" None false false None Scenario.fresh) =
    Raise (TyperExit 1) ∧
  target_dir None "/srv/orders" (fs Scenario.fresh) = Path.parse "/srv/orders".
Proof.
  intros lax.
  pose proof (default_target_edges lax (Engine.renderer Scenario.catalog)
    "." "rest" 8000 "3.11" None false false Scenario.fresh) as (_ & _ & H).
  pose proof (default_target_edges lax (Engine.renderer Scenario.catalog)
    "/srv/orders" "rest" 8000 "3.11" None false false Scenario.fresh) as (Habs & _).
  assert (He : path_exists (fs Scenario.fresh) (cwd (fs Scenario.fresh)) = true)
    by (vm_compute; reflexivity).
  split; [reflexivity|]. split; [exact He|]. split.
  - destruct (H (or_intror eq_refl)) as [_ Hrun]. by rewrite (Hrun eq_refl He).
  - exact (Habs eq_refl).
Defined.

(** X10: [create] never lists the templates and prints no table: what it
    does is the same for two renderers that differ in their listing only.
    Thus the hint it ends on for an unknown service type, [Available types:
    rest], is a fixed line. *)
Theorem create_never_lists validate info l1 l2 rn nm st port pv ad nd nt od w :
  let r1 := mkRenderer info l1 rn in
  let r2 := mkRenderer info l2 rn in
  create validate r1 nm st port pv ad nd nt od w =
    create validate r2 nm st port pv ad nd nt od w
  ∧ count is_listing (emitted validate r1 nm st port pv ad nd nt od w) = 0
  ∧ (valid (validate nm) = true →
     path_exists (fs w) (target_dir od nm (fs w)) = false →
     info st = None →
     last (emitted validate r1 nm st port pv ad nd nt od w) =
       Some (UiInfo "Available types: rest")).
Proof.
  cbn zeta. split; [by rewrite !create_run|]. split.
  - create_split; try done. unfold events_invalid. by destruct (truthy _).
  - intros Hv He Hi. unfold emitted. rewrite create_run. unfold create_cases.
    cbn [get_template_info]. rewrite Hv, He, Hi. cbn [negb snd trace].
    by rewrite drop_app_length.
Qed.

Lemma create_never_lists_witness :
  let r := mkRenderer (fun _ => None) [mkDescriptor "grpc" "grpc" "gRPC service" "0.1.0"]
             (fun _ _ _ f => (f, None)) in
  valid (Scenario.validator "orders") = true ∧
  path_exists (fs Scenario.fresh) (target_dir None "orders" (fs Scenario.fresh)) = false ∧
  last (emitted Scenario.validator r "orders" "grpc" 8000 "3.11" None false false None
          Scenario.fresh) = Some (UiInfo "Available types: rest").
Proof.
  intros r.
  assert (He : path_exists (fs Scenario.fresh)
                 (target_dir None "orders" (fs Scenario.fresh)) = false)
    by (vm_compute; reflexivity).
  split; [reflexivity|]. split; [exact He|].
  exact (proj2 (proj2 (create_never_lists Scenario.validator (fun _ => None)
    [mkDescriptor "grpc" "grpc" "gRPC service" "0.1.0"] [] (fun _ _ _ f => (f, None))
    "orders" "grpc" 8000 "3.11" None false false None Scenario.fresh))
    eq_refl He eq_refl).
Defined.

(** X11: [create] with a name alone asks the renderer, when it reaches it,
    for the [rest] template in the directory of that name under the working
    directory, with port 8000, Python 3.11, and both the container files
    and the tests included. *)
Theorem create_default_request validate r nm w :
  let evs := drop (length (trace w)) (trace (snd (create_default validate r nm w))) in
  (∀ st p vars, CallRender st p vars ∈ evs →
     st = "rest" ∧ p = Path.join (cwd (fs w)) nm ∧
     vars !! "port" = Some (VInt 8000) ∧
     vars !! "python_version" = Some (VStr "3.11") ∧
     vars !! "include_docker" = Some (VBool true) ∧
     vars !! "include_tests" = Some (VBool true))
  ∧ (reaches_render validate r nm "rest" None w = true →
     ∃ vars, CallRender "rest" (Path.join (cwd (fs w)) nm) vars ∈ evs).
Proof.
  cbn zeta. unfold create_default.
  change (drop _ _) with (emitted validate r nm "rest" 8000 "3.11" None false false None w).
  split.
  - intros st p vars Hin.
    destruct (create_cases_render_call validate r nm "rest" 8000 "3.11" false false None w)
      as (evs & Ht & Hc).
    rewrite <- create_run with (ad := None) in Ht.
    rewrite trace_emitted in Ht. apply app_inv_head in Ht. subst evs.
    destruct (Hc _ _ _ Hin) as (-> & -> & ->).
    split; [done|]. split; [done|]. repeat split; by simplify_map_eq.
  - create_split; try done; intros _; eexists;
      cbn; repeat first [apply list_elem_of_here | apply list_elem_of_further].
Qed.

Lemma create_default_request_witness :
  reaches_render Scenario.validator (Engine.renderer Scenario.catalog)
    "orders" "rest" None Scenario.fresh = true ∧
  ∃ vars,
    CallRender "rest" (Path.parse "/home/dev/orders") vars ∈
      drop 0 (trace (snd (create_default Scenario.validator
                            (Engine.renderer Scenario.catalog) "orders" Scenario.fresh))).
Proof.
  assert (H : reaches_render Scenario.validator (Engine.renderer Scenario.catalog)
                "orders" "rest" None Scenario.fresh = true) by (vm_compute; reflexivity).
  split; [exact H|].
  exact (proj2 (create_default_request Scenario.validator
    (Engine.renderer Scenario.catalog) "orders" Scenario.fresh) H).
Defined.

(** X12: [version] and [list] only read and print: each returns normally,
    leaves the file system as it was, prints no error line, and calls
    neither the validator, nor the existence check, nor the template
    lookup, nor the renderer; [version] prints one line, which carries the
    version of the package. *)
Theorem version_and_list_read_only r v w :
  version_cmd v w =
    (Return tt,
     mkWorld (fs w)
       (trace w ++ [UiPrint ("[bold blue]kraft[/bold blue] version [green]" +:+ v +:+
                             "[/green]")]))
  ∧ ∃ out,
      list_templates_cmd r w =
        (Return tt, mkWorld (fs w) (trace w ++ [CallListTemplates; out]))
      ∧ is_ui_error out = false ∧ is_call out = false.
Proof.
  split; [done|]. run_cli.
  destruct (list_templates r); cbn; eexists; rewrite <- app_assoc; done.
Qed.

(** X13: [create] returns normally exactly when the validator accepts the
    name, the existence check of the target answers no, the renderer has
    template info for the service type and [render] raises nothing. *)
Theorem create_succeeds_iff validate r nm st port pv ad nd nt od w :
  let res := create validate r nm st port pv ad nd nt od w in
  let t := target_dir od nm (fs w) in
  fst res = Return tt ↔
  valid (validate nm) = true ∧
  path_exists (fs w) t = false ∧
  is_Some (get_template_info r st) ∧
  snd (render r st t (variables nm port pv nd nt) (fs w)) = None.
Proof.
  cbn zeta. rewrite create_run. unfold create_cases.
  destruct (valid (validate nm)); cbn [negb]; [|split; [done|by intros [? _]]].
  destruct (path_exists _ _); [split; [done|by intros (_ & ? & _)]|].
  destruct (get_template_info r st) as [d|].
  2: { split; [done|]. by intros (_ & _ & [? ?] & _). }
  destruct (render r st _ _ (fs w)) as [f' [cause|]]; cbn.
  - split; [done|]. by intros (_ & _ & _ & ?).
  - split; [|done]. intros _. repeat split; eauto.
Qed.

Lemma create_succeeds_iff_witness :
  valid (Scenario.validator "orders") = true ∧
  path_exists (fs Scenario.fresh) (target_dir None "orders" (fs Scenario.fresh)) = false ∧
  is_Some (get_template_info (Engine.renderer Scenario.catalog) "rest") ∧
  fst (create Scenario.validator (Engine.renderer Scenario.catalog)
         "orders" "rest" 8000 "3.11" None false false None Scenario.fresh) = Return tt.
Proof.
  assert (He : path_exists (fs Scenario.fresh)
                 (target_dir None "orders" (fs Scenario.fresh)) = false)
    by (vm_compute; reflexivity).
  assert (Hi : is_Some (get_template_info (Engine.renderer Scenario.catalog) "rest"))
    by (vm_compute; eauto).
  split; [reflexivity|]. split; [exact He|]. split; [exact Hi|].
  apply (proj2 (create_succeeds_iff Scenario.validator
    (Engine.renderer Scenario.catalog) "orders" "rest" 8000 "3.11" None
    false false None Scenario.fresh)).
  split; [reflexivity|]. split; [exact He|]. split; [exact Hi|].
  vm_compute; reflexivity.
Defined.
